(** * simpler_go_service: the product service, its error model and its adapters

    A shallow embedding of
      - internal/domain        (errors.go, the product types),
      - internal/service       (ResourseService: the cache/store orchestration),
      - internal/adapters      (the Redis cache and the Postgres repository),
      - internal/routing       (the paged branch of the products handler),
    with the properties of the orchestration layer proved over it.

    Go values are represented as follows.  [int64] is [Z]; a pointer
    [*domain.Product] is [option Product] with [None] for nil; a slice that
    the code distinguishes from nil ([[]byte], [[]domain.Product]) is an
    [option] of its contents; the slice of collected errors is a [list]
    (it is only ever appended to, so it is nil exactly when it is empty);
    a Go [error] is [option error] with [None] for nil; byte strings and
    texts are [string]. *)

From Stdlib Require Import ZArith List Lia Ascii String.
From stdpp Require Import base option strings pretty list gmap.

Open Scope Z_scope.
Open Scope string_scope.
Open Scope list_scope.

(** ** internal/domain *)

Module domain.

(** The four package-level error values built with [errors.New]. *)
Inductive sentinel : Set :=
| ErrNotFound
| ErrInvalidInput
| ErrInternalDb
| ErrInternalCache.

(** Go error values as the program builds and inspects them: a package
    sentinel, an error made by [fmt.Errorf] around one [%w] operand
    (its text is the formatted message, [Unwrap] gives the operand), or
    an error value coming from elsewhere (a driver, an encoder, a test
    double) of which only the text is known. *)
Inductive error : Set :=
| Sentinel (s : sentinel)
| Wrapped (text : string) (inner : error)
| Foreign (text : string).

#[global] Instance sentinel_eq_dec : EqDecision sentinel.
Proof. solve_decision. Defined.

#[global] Instance error_eq_dec : EqDecision error.
Proof. solve_decision. Defined.

Definition sentinel_text (s : sentinel) : string :=
  match s with
  | ErrNotFound => "product not found"
  | ErrInvalidInput => "invalid input"
  | ErrInternalDb => "internal database error"
  | ErrInternalCache => "internal cache error"
  end.

(** The [Error()] method of an error value. *)
Definition Error (e : error) : string :=
  match e with
  | Sentinel s => sentinel_text s
  | Wrapped text _ => text
  | Foreign text => text
  end.

(** [fmt.Errorf("%w" ++ rest, inner)]: every wrapping format of the
    adapters starts with the wrapped error. *)
Definition Errorf_w (inner : error) (rest : string) : error :=
  Wrapped (Error inner +:+ rest) inner.

(** [fmt.Errorf(prefix ++ "%w", inner)]. *)
Definition Errorf_prefix_w (prefix : string) (inner : error) : error :=
  Wrapped (prefix +:+ Error inner) inner.

(** [errors.Is]: walks the [Unwrap] chain comparing with the target. *)
Fixpoint errors_Is (err target : error) : bool :=
  if decide (err = target) then true
  else match err with
       | Wrapped _ inner => errors_Is inner target
       | _ => false
       end.

Record Product : Set := mkProduct {
  Id : Z;
  Name : string;
  AdditionalInfo : string
}.

Record NewProduct : Set := mkNewProduct {
  NewName : string;
  NewAdditionalInfo : string
}.

#[global] Instance Product_eq_dec : EqDecision Product.
Proof. solve_decision. Defined.

Record ServiceError : Set := mkServiceError {
  CriticalError : option error;
  NonCriticalErrors : list error
}.

Definition NewServiceError (critical : option error) (nonCritical : list error)
  : ServiceError :=
  {| CriticalError := critical; NonCriticalErrors := nonCritical |}.

(** The line feed written by the ["\n"] escapes of the source. *)
Definition nl : string := String "010"%char EmptyString.

(** [bytes.Buffer.WriteString]: the buffer grows at its end. *)
Definition WriteString (buf s : string) : string := buf +:+ s.

(** The [Error] method of [ServiceError] (pointer receiver). *)
Definition ServiceError_Error (se : ServiceError) : string :=
  let errMessage := "" in
  let errMessage := WriteString errMessage ("Service error(s)" +:+ nl +:+ ":") in
  let errMessage :=
    fold_left (fun buf err => WriteString buf (Error err +:+ nl))
              (NonCriticalErrors se) errMessage in
  match CriticalError se with
  | Some critical => WriteString errMessage (Error critical +:+ nl)
  | None => errMessage
  end.

Definition header : string := "Service error(s)" +:+ nl +:+ ":".

(** The reading of section 4.2 of the specification: the messages of the
    non-critical errors in their order, then the critical one if there is
    one, a line each, and nothing else.  It is compared below with
    [ServiceError_Error]. *)
Definition lines (errs : list error) : string :=
  fold_right (fun err rest => Error err +:+ nl +:+ rest) "" errs.

Definition rendered_lines (se : ServiceError) : string :=
  lines (NonCriticalErrors se)
  +:+ match CriticalError se with
      | Some critical => Error critical +:+ nl
      | None => ""
      end.

End domain.

Export domain.

(** ** internal/ports: the two backends as seen by the service

    Every method of [ports.Cache] and [ports.Repository] is one call; the
    service is a program over these calls, and a backend is whatever answers
    them.  What a run of the service did to its backends is then a list of
    calls with their answers. *)

Module ports.

Inductive Call : Type -> Type :=
(* ports.Cache *)
| Cache_SetProduct (product : option Product) : Call (option error)
| Cache_GetJSONProductById (id : Z) : Call (option string * option error)
| Cache_DeleteProductById (id : Z) : Call (option error)
| Cache_ClearCache : Call (option error)
(* ports.Repository *)
| Db_GetProduct (id : Z) : Call (option Product * option error)
| Db_GetAllProducts : Call (option (list Product) * option error)
| Db_GetProductsPaged (limit offset : Z)
  : Call (option (list Product) * option error)
| Db_StoreProduct (product : NewProduct) : Call (Z * option error)
| Db_UpdateProductById (id : Z) (product : NewProduct)
  : Call (option Product * option error)
| Db_DeleteProductById (id : Z) : Call (option Product * option error)
| Db_DeleteAllProducts : Call (Z * option error).

(** Which backend a call goes to. *)
Definition to_store {X} (c : Call X) : bool :=
  match c with
  | Cache_SetProduct _ | Cache_GetJSONProductById _
  | Cache_DeleteProductById _ | Cache_ClearCache => false
  | _ => true
  end.

(** A call either returns or panics (a nil dereference, a failed
    allocation): Go's run-time panics unwind the whole request. *)
Inductive outcome (A : Type) : Type :=
| Returned (a : A)
| Panicked (reason : string).
Arguments Returned {A} a.
Arguments Panicked {A} reason.

(** Programs over the backends. *)
Inductive Prog (A : Type) : Type :=
| Ret (a : A)
| Do {X : Type} (c : Call X) (k : X -> Prog A).
Arguments Ret {A} a.
Arguments Do {A X} c k.

Fixpoint bind {A B} (p : Prog A) (f : A -> Prog B) : Prog B :=
  match p with
  | Ret a => f a
  | Do c k => Do c (fun x => bind (k x) f)
  end.

Definition call {X} (c : Call X) : Prog X := Do c Ret.

#[global] Instance Prog_ret : MRet Prog := @Ret.
#[global] Instance Prog_bind : MBind Prog := fun A B f p => bind p f.

(** One entry of the record of a run: the call and what came back. *)
Inductive Invocation : Type :=
| Invoked {X : Type} (c : Call X) (r : outcome X).

Definition store_call (i : Invocation) : bool :=
  match i with Invoked c _ => to_store c end.

(** The calls of a run that went to the store. *)
Definition store_calls (tr : list Invocation) : list Invocation :=
  filter (fun i => store_call i = true) tr.

(** A pair of backends over a state [W]. *)
Definition Backends (W : Type) : Type :=
  forall X, Call X -> W -> outcome X * W.

(** Running a program against backends: the calls are made in order, each
    on the state the previous one left; a panic ends the run. *)
Fixpoint run {W A} (b : Backends W) (p : Prog A) (w : W)
  : outcome A * W * list Invocation :=
  match p with
  | Ret a => (Returned a, w, [])
  | Do c k =>
      match b _ c w with
      | (Returned x, w') =>
          let '(o, w'', tr) := run b (k x) w' in
          (o, w'', Invoked c (Returned x) :: tr)
      | (Panicked reason, w') =>
          (Panicked reason, w', [Invoked c (Panicked reason)])
      end
  end.

End ports.

Export ports.

(** ** encoding/json

    [json.Marshal] on a [*domain.Product] is taken as given: the bytes and
    the error it returns. *)

Class Encoder : Type :=
  Marshal : option Product -> option string * option error.

(** ** internal/service *)

Module service.
Section ResourseService.

Context `{Encoder}.

(** [nonCriticalErrors != nil] *)
Definition not_nil {A} (l : list A) : bool :=
  match l with [] => false | _ => true end.

Definition GetProductById (id : Z)
  : Prog (option string * option ServiceError) :=
  let nonCriticalErrors : list error := [] in
  '(cacheRes, cacheErr) ← call (Cache_GetJSONProductById id);
  match cacheErr with
  | None => Ret (cacheRes, None)
  | Some cacheErr =>
    let nonCriticalErrors := nonCriticalErrors ++ [cacheErr] in
    '(dbRes, dbErr) ← call (Db_GetProduct id);
    match dbErr with
    | Some dbErr =>
        Ret (None, Some (NewServiceError (Some dbErr) nonCriticalErrors))
    | None =>
        err ← call (Cache_SetProduct dbRes);
        let nonCriticalErrors :=
          match err with
          | Some err => nonCriticalErrors ++ [err]
          | None => nonCriticalErrors
          end in
        let '(res, err) := Marshal dbRes in
        match err with
        | Some err =>
            let marshallingErr :=
              Errorf_prefix_w "service layer error: " err in
            let nonCriticalErrors := nonCriticalErrors ++ [marshallingErr] in
            Ret (None,
                 Some (NewServiceError (Some marshallingErr) nonCriticalErrors))
        | None =>
            if not_nil nonCriticalErrors
            then Ret (res, Some (NewServiceError None nonCriticalErrors))
            else Ret (res, None)
        end
    end
  end.

Definition GetAllProducts
  : Prog (option (list Product) * option ServiceError) :=
  '(products, err) ← call Db_GetAllProducts;
  match err with
  | Some err => Ret (None, Some (NewServiceError (Some err) []))
  | None => Ret (products, None)
  end.

Definition GetProductsPaged (limit offset : Z)
  : Prog (option (list Product) * option ServiceError) :=
  '(products, err) ← call (Db_GetProductsPaged limit offset);
  match err with
  | Some err => Ret (None, Some (NewServiceError (Some err) []))
  | None => Ret (products, None)
  end.

Definition CreateProduct (product : NewProduct)
  : Prog (Z * option ServiceError) :=
  '(id, dbErr) ← call (Db_StoreProduct product);
  match dbErr with
  | Some dbErr => Ret (0, Some (NewServiceError (Some dbErr) []))
  | None =>
    let newlyStoredProduct :=
      {| Id := id; Name := NewName product;
         AdditionalInfo := NewAdditionalInfo product |} in
    cacheErr ← call (Cache_SetProduct (Some newlyStoredProduct));
    match cacheErr with
    | Some cacheErr => Ret (id, Some (NewServiceError None [cacheErr]))
    | None => Ret (id, None)
    end
  end.

Definition UpdateProductById (id : Z) (product : NewProduct)
  : Prog (option Product * option ServiceError) :=
  let nonCriticalErrors : list error := [] in
  cacheErr ← call (Cache_DeleteProductById id);
  let store nonCriticalErrors :=
  '(oldProduct, dbErr) ← call (Db_UpdateProductById id product);
  match dbErr with
  | Some dbErr =>
      Ret (None, Some (NewServiceError (Some dbErr) nonCriticalErrors))
  | None =>
      if not_nil nonCriticalErrors
      then Ret (oldProduct, Some (NewServiceError None nonCriticalErrors))
      else Ret (oldProduct, None)
  end in
  match cacheErr with
  | Some cacheErr =>
    if errors_Is cacheErr (Sentinel ErrNotFound)
    then store (nonCriticalErrors ++ [cacheErr])
    else Ret (None, Some (NewServiceError (Some cacheErr) []))
  | None => store nonCriticalErrors
  end.

Definition DeleteProductById (id : Z)
  : Prog (option Product * option ServiceError) :=
  let nonCriticalErrors : list error := [] in
  cacheErr ← call (Cache_DeleteProductById id);
  let store nonCriticalErrors :=
  '(deletedProduct, dbErr) ← call (Db_DeleteProductById id);
  match dbErr with
  | Some dbErr =>
      Ret (None, Some (NewServiceError (Some dbErr) nonCriticalErrors))
  | None =>
      if not_nil nonCriticalErrors
      then Ret (deletedProduct, Some (NewServiceError None nonCriticalErrors))
      else Ret (deletedProduct, None)
  end in
  match cacheErr with
  | Some cacheErr =>
    if errors_Is cacheErr (Sentinel ErrNotFound)
    then store (nonCriticalErrors ++ [cacheErr])
    else Ret (None, Some (NewServiceError (Some cacheErr) []))
  | None => store nonCriticalErrors
  end.

Definition DeleteAllProducts : Prog (Z * option ServiceError) :=
  cacheErr ← call Cache_ClearCache;
  match cacheErr with
  | Some cacheErr => Ret (0, Some (NewServiceError (Some cacheErr) []))
  | None =>
    '(rowsDeleted, dbErr) ← call Db_DeleteAllProducts;
    match dbErr with
    | Some dbErr => Ret (0, Some (NewServiceError (Some dbErr) []))
    | None => Ret (rowsDeleted, None)
    end
  end.

End ResourseService.
End service.

(** ** The servers behind the adapters

    The Redis and Postgres clients are libraries; what the adapters rely on is
    modelled here: a key space and a table, and a schedule of connection
    faults.  The n-th command sent to a server fails with the n-th entry of
    its schedule when that is [Some text]; past the end of the schedule every
    command gets through. *)

Definition next_fault (faults : list (option string))
  : option string * list (option string) :=
  match faults with
  | [] => (None, [])
  | f :: faults' => (f, faults')
  end.

(** ** internal/adapters/cache *)

Module cache.

Record Redis : Type := mkRedis {
  redis_keys : gmap string string;
  redis_faults : list (option string)
}.

(** What a go-redis command reports: [redis.Nil] or another error. *)
Inductive redis_error : Set :=
| Nil
| Failure (text : string).

Definition redis_text (e : redis_error) : string :=
  match e with
  | Nil => "redis: nil"
  | Failure text => text
  end.

(** [client.Set(ctx, key, data, 0)]: no expiry. *)
Definition client_Set (key data : string) (r : Redis)
  : option redis_error * Redis :=
  let '(f, faults) := next_fault (redis_faults r) in
  match f with
  | Some text => (Some (Failure text), mkRedis (redis_keys r) faults)
  | None => (None, mkRedis (<[key := data]> (redis_keys r)) faults)
  end.

(** [client.Get(ctx, key).Bytes()] *)
Definition client_Get (key : string) (r : Redis)
  : (string + redis_error) * Redis :=
  let '(f, faults) := next_fault (redis_faults r) in
  let r' := mkRedis (redis_keys r) faults in
  match f with
  | Some text => (inr (Failure text), r')
  | None =>
      match redis_keys r !! key with
      | Some data => (inl data, r')
      | None => (inr Nil, r')
      end
  end.

(** [client.Del(ctx, key).Result()]: the number of keys removed. *)
Definition client_Del (key : string) (r : Redis)
  : (Z + redis_error) * Redis :=
  let '(f, faults) := next_fault (redis_faults r) in
  match f with
  | Some text => (inr (Failure text), mkRedis (redis_keys r) faults)
  | None =>
      match redis_keys r !! key with
      | Some _ => (inl 1, mkRedis (delete key (redis_keys r)) faults)
      | None => (inl 0, mkRedis (redis_keys r) faults)
      end
  end.

(** [client.FlushDB(ctx).Result()] *)
Definition client_FlushDB (r : Redis) : option redis_error * Redis :=
  let '(f, faults) := next_fault (redis_faults r) in
  match f with
  | Some text => (Some (Failure text), mkRedis (redis_keys r) faults)
  | None => (None, mkRedis ∅ faults)
  end.

Definition createKey (id : Z) : string := "product:" +:+ pretty id.

Section RedisCache.
Context `{Encoder}.

Definition SetProduct (product : option Product) (r : Redis)
  : outcome (option error) * Redis :=
  match product with
  | None =>
      (* product.Id on a nil pointer *)
      (Panicked "runtime error: invalid memory address or nil pointer dereference",
       r)
  | Some p =>
      let key := createKey (Id p) in
      let '(data, err) := Marshal product in
      match err with
      | Some err =>
          (Returned (Some (Errorf_w (Sentinel ErrInternalCache)
                             (": error marshalling product: " +:+ Error err))),
           r)
      | None =>
          let '(err, r) := client_Set key (default "" data) r in
          match err with
          | Some err =>
              (Returned (Some (Errorf_w (Sentinel ErrInternalCache)
                                 (": failed to store product to cache: "
                                  +:+ redis_text err))),
               r)
          | None => (Returned None, r)
          end
      end
  end.

Definition GetJSONProductById (id : Z) (r : Redis)
  : outcome (option string * option error) * Redis :=
  let key := createKey id in
  let '(res, r) := client_Get key r in
  match res with
  | inr err =>
      match err with
      | Nil =>
          (Returned (None,
                     Some (Errorf_w (Sentinel ErrNotFound)
                             (": failed to find product " +:+ pretty id
                              +:+ " in cache"))),
           r)
      | _ =>
          (Returned (None,
                     Some (Errorf_w (Sentinel ErrInternalCache)
                             (": failed to get product " +:+ pretty id
                              +:+ " from cache: " +:+ redis_text err))),
           r)
      end
  | inl data => (Returned (Some data, None), r)
  end.

Definition DeleteProductById (id : Z) (r : Redis)
  : outcome (option error) * Redis :=
  let key := createKey id in
  let '(res, r) := client_Del key r in
  match res with
  | inr err =>
      (Returned (Some (Errorf_w (Sentinel ErrInternalCache)
                         (": failed to delete product " +:+ pretty id
                          +:+ " from cache: " +:+ redis_text err))),
       r)
  | inl result =>
      if decide (result = 0)
      then (Returned (Some (Errorf_w (Sentinel ErrNotFound)
                              (": product with id=" +:+ pretty id
                               +:+ " not found in cache"))),
            r)
      else (Returned None, r)
  end.

Definition ClearCache (r : Redis) : outcome (option error) * Redis :=
  let '(err, r) := client_FlushDB r in
  match err with
  | Some err =>
      (Returned (Some (Errorf_w (Sentinel ErrInternalCache)
                         (": failed to clear cache: " +:+ redis_text err))),
       r)
  | None => (Returned None, r)
  end.

End RedisCache.
End cache.

(** ** internal/adapters/repository *)

Module repository.

(** The [products] table in the order a scan returns its rows, the last
    value handed out by the sequence behind [id], and the fault schedule of
    the connection. *)
Record Postgres : Type := mkPostgres {
  pg_rows : list Product;
  pg_seq : Z;
  pg_faults : list (option string)
}.

(** What database/sql reports: [sql.ErrNoRows] or an error of the driver. *)
Inductive sql_error : Set :=
| ErrNoRows
| DriverError (text : string).

Definition sql_text (e : sql_error) : string :=
  match e with
  | ErrNoRows => "sql: no rows in result set"
  | DriverError text => text
  end.

Definition has_id (id : Z) (p : Product) : bool := bool_decide (Id p = id).

Definition sent (db : Postgres) (faults : list (option string)) : Postgres :=
  mkPostgres (pg_rows db) (pg_seq db) faults.

(** [SELECT id, name, additional_info FROM products WHERE id = $1],
    through [QueryRow] and [Scan]. *)
Definition select_by_id (id : Z) (db : Postgres)
  : (Product + sql_error) * Postgres :=
  let '(f, faults) := next_fault (pg_faults db) in
  match f with
  | Some text => (inr (DriverError text), sent db faults)
  | None =>
      match find (has_id id) (pg_rows db) with
      | Some p => (inl p, sent db faults)
      | None => (inr ErrNoRows, sent db faults)
      end
  end.

(** [SELECT id, name, additional_info FROM products], through [Query]. *)
Definition select_all (db : Postgres)
  : (list Product + sql_error) * Postgres :=
  let '(f, faults) := next_fault (pg_faults db) in
  match f with
  | Some text => (inr (DriverError text), sent db faults)
  | None => (inl (pg_rows db), sent db faults)
  end.

(** [SELECT ... FROM products LIMIT $1 OFFSET $2], through [Query].
    Postgres rejects a negative LIMIT or OFFSET. *)
Definition select_limit_offset (limit offset : Z) (db : Postgres)
  : (list Product + sql_error) * Postgres :=
  let '(f, faults) := next_fault (pg_faults db) in
  match f with
  | Some text => (inr (DriverError text), sent db faults)
  | None =>
      if decide (limit < 0)
      then (inr (DriverError "pq: LIMIT must not be negative"), sent db faults)
      else if decide (offset < 0)
      then (inr (DriverError "pq: OFFSET must not be negative"), sent db faults)
      else (inl (firstn (Z.to_nat limit) (skipn (Z.to_nat offset) (pg_rows db))),
            sent db faults)
  end.

(** [rows.Err()] once [rows.Next()] has returned false: a fault while the
    rows were read shows here. *)
Definition rows_Err (db : Postgres) : option sql_error * Postgres :=
  let '(f, faults) := next_fault (pg_faults db) in
  match f with
  | Some text => (Some (DriverError text), sent db faults)
  | None => (None, sent db faults)
  end.

(** [UPDATE products SET name = $1, additional_info = $2 FROM (SELECT ...
    WHERE id = $3) as old WHERE id = $3 RETURNING id, old.name,
    old.additional_info] *)
Definition update_returning_old (name info : string) (id : Z) (db : Postgres)
  : (Product + sql_error) * Postgres :=
  let '(f, faults) := next_fault (pg_faults db) in
  match f with
  | Some text => (inr (DriverError text), sent db faults)
  | None =>
      match find (has_id id) (pg_rows db) with
      | Some old =>
          (inl {| Id := id; Name := Name old;
                  AdditionalInfo := AdditionalInfo old |},
           mkPostgres
             (map (fun p => if has_id id p
                            then {| Id := Id p; Name := name;
                                    AdditionalInfo := info |}
                            else p) (pg_rows db))
             (pg_seq db) faults)
      | None => (inr ErrNoRows, sent db faults)
      end
  end.

(** [DELETE FROM products WHERE id = $1 RETURNING id, name,
    additional_info] *)
Definition delete_returning (id : Z) (db : Postgres)
  : (Product + sql_error) * Postgres :=
  let '(f, faults) := next_fault (pg_faults db) in
  match f with
  | Some text => (inr (DriverError text), sent db faults)
  | None =>
      match find (has_id id) (pg_rows db) with
      | Some p =>
          (inl p,
           mkPostgres (List.filter (fun q => negb (has_id id q)) (pg_rows db))
                      (pg_seq db) faults)
      | None => (inr ErrNoRows, sent db faults)
      end
  end.

(** Modelled from the spec: the schema of [products] is not among the
    sources; the identity of a product is a positive integer assigned by
    the store and identifies the product, so [id] is taken from a sequence
    and is a key of the table.

    [INSERT INTO products (name, additional_info) VALUES ($1, $2)
    RETURNING id] *)
Definition insert_returning_id (name info : string) (db : Postgres)
  : (Z + sql_error) * Postgres :=
  let '(f, faults) := next_fault (pg_faults db) in
  match f with
  | Some text => (inr (DriverError text), sent db faults)
  | None =>
      let id := pg_seq db + 1 in
      match find (has_id id) (pg_rows db) with
      | Some _ =>
          (inr (DriverError "pq: duplicate key value violates unique constraint"),
           mkPostgres (pg_rows db) id faults)
      | None =>
          (inl id,
           mkPostgres (pg_rows db ++ [{| Id := id; Name := name;
                                         AdditionalInfo := info |}])
                      id faults)
      end
  end.

(** A transaction: the table as the transaction sees it.  Nothing of it
    reaches [pg_rows] before [tx_Commit]. *)
Record Tx : Type := mkTx { tx_rows : list Product }.

Definition Begin (db : Postgres) : (Tx + sql_error) * Postgres :=
  let '(f, faults) := next_fault (pg_faults db) in
  match f with
  | Some text => (inr (DriverError text), sent db faults)
  | None => (inl (mkTx (pg_rows db)), sent db faults)
  end.

(** [SELECT COUNT ( * ) FROM products] in the transaction. *)
Definition tx_count (tx : Tx) (db : Postgres) : (Z + sql_error) * Postgres :=
  let '(f, faults) := next_fault (pg_faults db) in
  match f with
  | Some text => (inr (DriverError text), sent db faults)
  | None => (inl (Z.of_nat (length (tx_rows tx))), sent db faults)
  end.

(** [TRUNCATE TABLE products] in the transaction; the sequence is not
    restarted. *)
Definition tx_truncate (tx : Tx) (db : Postgres) : (Tx + sql_error) * Postgres :=
  let '(f, faults) := next_fault (pg_faults db) in
  match f with
  | Some text => (inr (DriverError text), sent db faults)
  | None => (inl (mkTx []), sent db faults)
  end.

Definition tx_Commit (tx : Tx) (db : Postgres) : option sql_error * Postgres :=
  let '(f, faults) := next_fault (pg_faults db) in
  match f with
  | Some text => (Some (DriverError text), sent db faults)
  | None => (None, mkPostgres (tx_rows tx) (pg_seq db) faults)
  end.

(** The deferred [tx.Rollback()]: what the transaction did is dropped; after
    a commit there is nothing left to drop. *)
Definition tx_Rollback (tx : Tx) (db : Postgres) : Postgres := db.

(** [unsafe.Sizeof(domain.Product{})]: an int64 and two string headers. *)
Definition Product_size : Z := 40.

(** The largest allocation the Go runtime accepts on a 64-bit Linux
    target. *)
Definition maxAlloc : Z := 2 ^ 48.

(** [make([]domain.Product, 0, cap)] succeeds. *)
Definition makeslice_ok (cap : Z) : bool :=
  bool_decide (0 <= cap /\ Product_size * cap <= maxAlloc).

Definition internal (rest : string) : error :=
  Errorf_w (Sentinel ErrInternalDb) rest.

Definition GetProduct (id : Z) (db : Postgres)
  : outcome (option Product * option error) * Postgres :=
  let '(res, db) := select_by_id id db in
  match res with
  | inr err =>
      match err with
      | ErrNoRows =>
          (Returned (None,
                     Some (Errorf_w (Sentinel ErrNotFound)
                             (": failed to find product " +:+ pretty id
                              +:+ " in DB"))),
           db)
      | _ =>
          (Returned (None,
                     Some (internal (": failed to get product " +:+ pretty id
                                     +:+ ". " +:+ sql_text err))),
           db)
      end
  | inl product => (Returned (Some product, None), db)
  end.

(** The loop over [rows.Next()]: every row is appended. *)
Definition scan_rows (products rows : list Product) : list Product :=
  fold_left (fun products product => products ++ [product]) rows products.

Definition GetAllProducts (db : Postgres)
  : outcome (option (list Product) * option error) * Postgres :=
  let products : list Product := [] in
  let '(rows, db) := select_all db in
  match rows with
  | inr err =>
      (Returned (None, Some (internal ": failed to get all products")), db)
  | inl rows =>
      let products := scan_rows products rows in
      let '(err, db) := rows_Err db in
      match err with
      | Some err =>
          (Returned (None,
                     Some (internal (": error while iterating over rows. "
                                     +:+ sql_text err))),
           db)
      | None => (Returned (Some products, None), db)
      end
  end.

Definition GetProductsPaged (limit offset : Z) (db : Postgres)
  : outcome (option (list Product) * option error) * Postgres :=
  if negb (makeslice_ok limit)
  then (Panicked "runtime error: makeslice: cap out of range", db)
  else
    let products : list Product := [] in
    let '(rows, db) := select_limit_offset limit offset db in
    match rows with
    | inr err =>
        (Returned (None,
                   Some (internal (": failed to get paginated products. "
                                   +:+ sql_text err))),
         db)
    | inl rows =>
        let products := scan_rows products rows in
        let '(err, db) := rows_Err db in
        match err with
        | Some err =>
            (Returned (None,
                       Some (internal (": error while iterating over rows. "
                                       +:+ sql_text err))),
             db)
        | None => (Returned (Some products, None), db)
        end
    end.

Definition UpdateProductById (id : Z) (product : NewProduct) (db : Postgres)
  : outcome (option Product * option error) * Postgres :=
  let '(res, db) :=
    update_returning_old (NewName product) (NewAdditionalInfo product) id db in
  match res with
  | inr err =>
      match err with
      | ErrNoRows =>
          (Returned (None,
                     Some (Errorf_w (Sentinel ErrNotFound)
                             (": failed to find product " +:+ pretty id
                              +:+ " in DB"))),
           db)
      | _ =>
          (Returned (None,
                     Some (internal (": failed to update product "
                                     +:+ pretty id +:+ ". " +:+ sql_text err))),
           db)
      end
  | inl oldProduct => (Returned (Some oldProduct, None), db)
  end.

Definition DeleteProductById (id : Z) (db : Postgres)
  : outcome (option Product * option error) * Postgres :=
  let '(res, db) := delete_returning id db in
  match res with
  | inr err =>
      match err with
      | ErrNoRows =>
          (Returned (None,
                     Some (Errorf_w (Sentinel ErrNotFound)
                             (": failed to find product " +:+ pretty id
                              +:+ " in DB"))),
           db)
      | _ =>
          (Returned (None,
                     Some (internal (": failed to delete product "
                                     +:+ pretty id +:+ ". " +:+ sql_text err))),
           db)
      end
  | inl oldProduct => (Returned (Some oldProduct, None), db)
  end.

Definition DeleteAllProducts (db : Postgres)
  : outcome (Z * option error) * Postgres :=
  let '(tx, db) := Begin db in
  match tx with
  | inr err =>
      (Returned (0, Some (internal (": failed to start transaction. "
                                    +:+ sql_text err))),
       db)
  | inl tx =>
      (* defer tx.Rollback() *)
      let '(count, db) := tx_count tx db in
      match count with
      | inr err =>
          (Returned (0, Some (internal (": failed to count rows. "
                                        +:+ sql_text err))),
           tx_Rollback tx db)
      | inl count =>
          let '(res, db) := tx_truncate tx db in
          match res with
          | inr err =>
              (Returned (0, Some (internal (": failed to truncate table. "
                                            +:+ sql_text err))),
               tx_Rollback tx db)
          | inl tx =>
              let '(err, db) := tx_Commit tx db in
              match err with
              | Some err =>
                  (Returned (0, Some (internal (": failed to commit transaction. "
                                                +:+ sql_text err))),
                   tx_Rollback tx db)
              | None => (Returned (count, None), tx_Rollback tx db)
              end
          end
      end
  end.

Definition StoreProduct (product : NewProduct) (db : Postgres)
  : outcome (Z * option error) * Postgres :=
  let '(res, db) :=
    insert_returning_id (NewName product) (NewAdditionalInfo product) db in
  match res with
  | inr err =>
      (Returned (0, Some (internal (": failed to store product. "
                                    +:+ sql_text err))),
       db)
  | inl id => (Returned (id, None), db)
  end.

End repository.

(** ** internal/app: the service wired to the two adapters *)

Module app.

Record World : Type := mkWorld {
  redis : cache.Redis;
  postgres : repository.Postgres
}.

Section Wiring.
Context `{Encoder}.

Definition on_cache {X} (f : cache.Redis -> outcome X * cache.Redis)
           (w : World) : outcome X * World :=
  let '(o, r) := f (redis w) in (o, mkWorld r (postgres w)).

Definition on_store {X}
           (f : repository.Postgres -> outcome X * repository.Postgres)
           (w : World) : outcome X * World :=
  let '(o, db) := f (postgres w) in (o, mkWorld (redis w) db).

(** [service.NewResourceService(repo, cache)] over the Postgres
    repository and the Redis cache. *)
Definition adapters : Backends World :=
  fun X (c : Call X) =>
    match c in Call X return World -> outcome X * World with
    | Cache_SetProduct product => on_cache (cache.SetProduct product)
    | Cache_GetJSONProductById id => on_cache (cache.GetJSONProductById id)
    | Cache_DeleteProductById id => on_cache (cache.DeleteProductById id)
    | Cache_ClearCache => on_cache cache.ClearCache
    | Db_GetProduct id => on_store (repository.GetProduct id)
    | Db_GetAllProducts => on_store repository.GetAllProducts
    | Db_GetProductsPaged limit offset =>
        on_store (repository.GetProductsPaged limit offset)
    | Db_StoreProduct product => on_store (repository.StoreProduct product)
    | Db_UpdateProductById id product =>
        on_store (repository.UpdateProductById id product)
    | Db_DeleteProductById id => on_store (repository.DeleteProductById id)
    | Db_DeleteAllProducts => on_store repository.DeleteAllProducts
    end.

End Wiring.

(** Both servers reachable from now on. *)
Definition healthy (w : World) : Prop :=
  cache.redis_faults (redis w) = [] /\ repository.pg_faults (postgres w) = [].

End app.

(** ** The test doubles of the service tests

    [MockRepository] and [MockCache]: every method answers what it was set up
    to answer, whatever was called before. *)

Module mocks.

Record MockCache : Type := mkMockCache {
  onSetProduct : option Product -> option error;
  onGetJSONProductById : Z -> option string * option error;
  onCacheDeleteProductById : Z -> option error;
  onClearCache : option error
}.

Record MockRepository : Type := mkMockRepository {
  onGetProduct : Z -> option Product * option error;
  onGetAllProducts : option (list Product) * option error;
  onGetProductsPaged : Z -> Z -> option (list Product) * option error;
  onStoreProduct : NewProduct -> Z * option error;
  onUpdateProductById : Z -> NewProduct -> option Product * option error;
  onDeleteProductById : Z -> option Product * option error;
  onDeleteAllProducts : Z * option error
}.

Definition answer (mc : MockCache) (mr : MockRepository) {X} (c : Call X) : X :=
  match c in Call X return X with
  | Cache_SetProduct product => onSetProduct mc product
  | Cache_GetJSONProductById id => onGetJSONProductById mc id
  | Cache_DeleteProductById id => onCacheDeleteProductById mc id
  | Cache_ClearCache => onClearCache mc
  | Db_GetProduct id => onGetProduct mr id
  | Db_GetAllProducts => onGetAllProducts mr
  | Db_GetProductsPaged limit offset => onGetProductsPaged mr limit offset
  | Db_StoreProduct product => onStoreProduct mr product
  | Db_UpdateProductById id product => onUpdateProductById mr id product
  | Db_DeleteProductById id => onDeleteProductById mr id
  | Db_DeleteAllProducts => onDeleteAllProducts mr
  end.

Definition doubles (mc : MockCache) (mr : MockRepository) : Backends unit :=
  fun X c w => (Returned (answer mc mr c), w).

End mocks.

(** ** An encoder to run examples with

    [json.Marshal] of a product whose texts hold no character that
    encoding/json escapes: the three fields in declaration order under their
    tags; a nil pointer encodes as [null]. *)

Definition dquote : string := String "034"%char EmptyString.

Definition plain_json (p : Product) : string :=
  "{" +:+ dquote +:+ "id" +:+ dquote +:+ ":" +:+ pretty (Id p) +:+ ","
  +:+ dquote +:+ "name" +:+ dquote +:+ ":" +:+ dquote +:+ Name p +:+ dquote +:+ ","
  +:+ dquote +:+ "additionalInfo" +:+ dquote +:+ ":"
  +:+ dquote +:+ AdditionalInfo p +:+ dquote +:+ "}".

Definition plain_encoder : Encoder :=
  fun v => match v with
           | Some p => (Some (plain_json p), None)
           | None => (Some "null", None)
           end.

(** An encoder that fails on every value, as a test double would. *)
Definition failing_encoder : Encoder :=
  fun _ => (None, Some (Foreign "json: unsupported value")).

(** ** internal/routing: the handler of [GET /products] *)

Module routing.

(** *** strconv.ParseInt(s, 10, 64) *)

Inductive NumError : Set :=
| ErrSyntax
| ErrRange.

Definition digit (c : ascii) : option Z :=
  let n := Z.of_nat (nat_of_ascii c) in
  if bool_decide (48 <= n <= 57) then Some (n - 48) else None.

(** The digit loop of [ParseUint]: a character that is no digit is a
    syntax error, a value past 64 bits a range error, whichever comes
    first. *)
Fixpoint parse_digits (s : string) (n : Z) : Z + NumError :=
  match s with
  | EmptyString => inl n
  | String c s' =>
      match digit c with
      | None => inr ErrSyntax
      | Some d =>
          if bool_decide (2 ^ 64 <= n * 10 + d) then inr ErrRange
          else parse_digits s' (n * 10 + d)
      end
  end.

Definition ParseUint (s : string) : Z + NumError :=
  match s with
  | EmptyString => inr ErrSyntax
  | _ => parse_digits s 0
  end.

Definition ParseInt (s : string) : Z + NumError :=
  match s with
  | EmptyString => inr ErrSyntax
  | String c s' =>
      let neg := bool_decide (c = "-"%char) in
      let s := if bool_decide (c = "+"%char) || neg then s' else s in
      match ParseUint s with
      | inr ErrSyntax => inr ErrSyntax
      | inr ErrRange => inr ErrRange
      | inl un =>
          if negb neg && bool_decide (2 ^ 63 <= un) then inr ErrRange
          else if neg && bool_decide (2 ^ 63 < un) then inr ErrRange
          else inl (if neg then - un else un)
      end
  end.

(** The error value of a failed [ParseInt]; the quoting of the input is
    plain, it only reaches the log. *)
Definition parse_error (s : string) (e : NumError) : error :=
  Foreign ("strconv.ParseInt: parsing " +:+ dquote +:+ s +:+ dquote +:+ ": "
           +:+ match e with
               | ErrSyntax => "invalid syntax"
               | ErrRange => "value out of range"
               end).

(** *** The response and the request's error container *)

Inductive Body : Type :=
| JsonProducts (products : option (list Product))
| JsonError (message : string).

Record Response : Type := mkResponse {
  status : Z;
  body : Body
}.

Definition StatusOK : Z := 200.
Definition StatusBadRequest : Z := 400.
Definition StatusInternalServerError : Z := 500.

(** [domain.ErrorContainer] with its [Add]. *)
Definition ErrorContainer : Type := list error.

Definition Add (c : ErrorContainer) (e : list error) : ErrorContainer :=
  fold_left (fun inner e => inner ++ [e]) e c.

Definition parseAndValidate (s : string) (lb : Z) (name : string)
           (c : ErrorContainer) : Z + Response * ErrorContainer :=
  let rejected err :=
    inr (mkResponse StatusBadRequest (JsonError ("Invalid " +:+ name)),
         Add c [err]) in
  match ParseInt s with
  | inr parseErr =>
      rejected (Errorf_prefix_w ("handler error: failed to parse " +:+ name
                                 +:+ ": ") (parse_error s parseErr))
  | inl value =>
      if bool_decide (value < lb)
      then rejected (Foreign ("hanlder error: invalid " +:+ name
                              +:+ ": has value " +:+ pretty value
                              +:+ ", must be ge " +:+ pretty lb))
      else inl value
  end.

Definition storeServiceErrToCtx (c : ErrorContainer) (e : ServiceError)
  : ErrorContainer :=
  let c := match CriticalError e with
           | Some critical => Add c [critical]
           | None => c
           end in
  if service.not_nil (NonCriticalErrors e) then Add c (NonCriticalErrors e)
  else c.

Section ProductHandler.
Context `{Encoder}.

(** What the handler does with the answer of a listing. *)
Definition respond_listing (c : ErrorContainer)
           (r : option (list Product) * option ServiceError)
  : Response * ErrorContainer :=
  let '(products, serviceErr) := r in
  match serviceErr with
  | Some serviceErr =>
      let c := storeServiceErrToCtx c serviceErr in
      match CriticalError serviceErr with
      | Some _ =>
          (mkResponse StatusInternalServerError
                      (JsonError "Internal server error"), c)
      | None => (mkResponse StatusOK (JsonProducts products), c)
      end
  | None => (mkResponse StatusOK (JsonProducts products), c)
  end.

(** [GetProducts]: [offset] and [limit] are the query parameters of the
    request, empty when absent. *)
Definition GetProducts (offset limit : string) (c : ErrorContainer)
  : Prog (Response * ErrorContainer) :=
  if bool_decide (offset <> "") && bool_decide (limit <> "")
  then
    match parseAndValidate offset 1 "offset" c with
    | inr rejected => Ret rejected
    | inl offsetInt =>
        match parseAndValidate limit 1 "limit" c with
        | inr rejected => Ret rejected
        | inl limitInt =>
            r ← service.GetProductsPaged offsetInt limitInt;
            Ret (respond_listing c r)
        end
    end
  else
    r ← service.GetAllProducts;
    Ret (respond_listing c r).

End ProductHandler.
End routing.

(** ** internal/routing: the handlers of one product and of the bulk delete *)

Module handlers.

Import routing.

(** [strings.TrimPrefix] *)
Fixpoint strip_prefix (prefix s : string) : option string :=
  match prefix with
  | EmptyString => Some s
  | String a prefix' =>
      match s with
      | EmptyString => None
      | String b s' =>
          if bool_decide (a = b) then strip_prefix prefix' s' else None
      end
  end.

Definition TrimPrefix (s prefix : string) : string :=
  default s (strip_prefix prefix s).

(** What a handler hands to the response writer: bytes as they are, or a
    value for the JSON encoder. *)
Inductive Written : Type :=
| Bytes (payload : option string)
| EncodedProducts (products : option (list Product))
| EncodedProduct (product : option Product)
| EncodedId (ID : Z)
| EncodedDeletedRows (DeletedRows : Z)
| EncodedError (message : string).

Record Reply : Type := mkReply {
  code : Z;
  written : Written
}.

Definition StatusCreated : Z := 201.
Definition StatusNotFound : Z := 404.

(** The response [parseAndValidate] has written when it rejects. *)
Definition rejection (r : Response) : Reply :=
  mkReply (status r)
          match body r with
          | JsonProducts products => EncodedProducts products
          | JsonError message => EncodedError message
          end.

(** The outcome of [decoder.Decode(&req)] on the request body: the value
    decoded so far and the error of the decoder. *)
Definition Decoded : Type := (NewProduct * option error)%type.

(** The check of the payload shared by [CreateProduct] and [UpdateProduct]:
    the [switch] on the decoding error and on the two texts. *)
Definition payload_error (d : Decoded) : option error :=
  let '(req, decodeErr) := d in
  match decodeErr with
  | Some decodeErr =>
      Some (Errorf_prefix_w "failed to decode payload: " decodeErr)
  | None =>
      if bool_decide (NewName req = "") || bool_decide (NewAdditionalInfo req = "")
      then Some (Foreign "failed to decode payload: product name or additional info is empty")
      else None
  end.

Section ProductHandler.
Context `{Encoder}.

Definition CreateProduct (d : Decoded) (c : ErrorContainer)
  : Prog (Reply * ErrorContainer) :=
  let req := d.1 in
  match payload_error d with
  | Some err =>
      Ret (mkReply StatusBadRequest (EncodedError "Invalid request body"),
           Add c [err])
  | None =>
      '(res, serviceErr) ← service.CreateProduct req;
      match serviceErr with
      | Some serviceErr =>
          let c := storeServiceErrToCtx c serviceErr in
          match CriticalError serviceErr with
          | Some _ =>
              Ret (mkReply StatusInternalServerError
                           (EncodedError "Internal server error"), c)
          | None => Ret (mkReply StatusCreated (EncodedId res), c)
          end
      | None => Ret (mkReply StatusCreated (EncodedId res), c)
      end
  end.

Definition GetProductById (path : string) (c : ErrorContainer)
  : Prog (Reply * ErrorContainer) :=
  let idStr := TrimPrefix path "/product/" in
  match parseAndValidate idStr 0 "product id" c with
  | inr (rejected, c) => Ret (rejection rejected, c)
  | inl id =>
      '(product, serviceErr) ← service.GetProductById id;
      match serviceErr with
      | Some serviceErr =>
          let c := storeServiceErrToCtx c serviceErr in
          match CriticalError serviceErr with
          | Some critical =>
              if errors_Is critical (Sentinel ErrNotFound)
              then Ret (mkReply StatusNotFound
                                (EncodedError "Product not found"), c)
              else Ret (mkReply StatusInternalServerError
                                (EncodedError "Internal server error"), c)
          | None => Ret (mkReply StatusOK (Bytes product), c)
          end
      | None => Ret (mkReply StatusOK (Bytes product), c)
      end
  end.

Definition UpdateProduct (path : string) (d : Decoded) (c : ErrorContainer)
  : Prog (Reply * ErrorContainer) :=
  let idStr := TrimPrefix path "/product/" in
  match parseAndValidate idStr 0 "product id" c with
  | inr (rejected, c) => Ret (rejection rejected, c)
  | inl id =>
      let req := d.1 in
      match payload_error d with
      | Some err =>
          Ret (mkReply StatusBadRequest (EncodedError "Invalid request body"),
               Add c [err])
      | None =>
          '(product, serviceErr) ← service.UpdateProductById id req;
          match serviceErr with
          | Some serviceErr =>
              let c := storeServiceErrToCtx c serviceErr in
              match CriticalError serviceErr with
              | Some critical =>
                  if errors_Is critical (Sentinel ErrNotFound)
                  then Ret (mkReply StatusNotFound
                                    (EncodedError "Product not found"), c)
                  else Ret (mkReply StatusInternalServerError
                                    (EncodedError "Internal server error"), c)
              | None => Ret (mkReply StatusOK (EncodedProduct product), c)
              end
          | None => Ret (mkReply StatusOK (EncodedProduct product), c)
          end
      end
  end.

Definition DeleteProduct (path : string) (c : ErrorContainer)
  : Prog (Reply * ErrorContainer) :=
  let idStr := TrimPrefix path "/product/" in
  match parseAndValidate idStr 0 "product id" c with
  | inr (rejected, c) => Ret (rejection rejected, c)
  | inl id =>
      '(deletedProduct, serviceErr) ← service.DeleteProductById id;
      match serviceErr with
      | Some serviceErr =>
          let c := storeServiceErrToCtx c serviceErr in
          match CriticalError serviceErr with
          | Some critical =>
              if errors_Is critical (Sentinel ErrNotFound)
              then Ret (mkReply StatusNotFound
                                (EncodedError "Product not found"), c)
              else Ret (mkReply StatusInternalServerError
                                (EncodedError "Internal server error"), c)
          | None => Ret (mkReply StatusOK (EncodedProduct deletedProduct), c)
          end
      | None => Ret (mkReply StatusOK (EncodedProduct deletedProduct), c)
      end
  end.

Definition DeleteAll (c : ErrorContainer) : Prog (Reply * ErrorContainer) :=
  '(deletedRows, serviceErr) ← service.DeleteAllProducts;
  match serviceErr with
  | Some serviceErr =>
      let c := storeServiceErrToCtx c serviceErr in
      match CriticalError serviceErr with
      | Some _ =>
          Ret (mkReply StatusInternalServerError
                       (EncodedError "Internal server error"), c)
      | None => Ret (mkReply StatusOK (EncodedDeletedRows deletedRows), c)
      end
  | None => Ret (mkReply StatusOK (EncodedDeletedRows deletedRows), c)
  end.

End ProductHandler.
End handlers.

(** ** internal/routing: the request counter of the logger *)

Module logger.

(** [getNewRequestId] on the [uint64] counter: the id handed out and the
    counter afterwards. *)
Definition getNewRequestId (requestCount : Z) : Z * Z :=
  let request_id := requestCount in
  (request_id, (requestCount + 1) mod 2 ^ 64).

(** The ids of [n] requests in a row, from the counter [requestCount] on. *)
Fixpoint request_ids (n : nat) (requestCount : Z) : list Z :=
  match n with
  | O => []
  | S n =>
      let '(request_id, requestCount) := getNewRequestId requestCount in
      request_id :: request_ids n requestCount
  end.

End logger.

(** * Inputs of the examples *)

Module examples.
Import cache repository app mocks.

(** The example of section 8 of the specification: the store holds product
    44, the cache is reachable and empty. *)
Definition p44 : Product := mkProduct 44 "A" "infoA".

Definition w44 : World :=
  mkWorld (mkRedis ∅ []) (mkPostgres [p44] 44 []).

(** As [w44], with the product in the cache as well. *)
Definition w44_cached : World :=
  mkWorld (mkRedis {[ createKey 44 := plain_json p44 ]} [])
          (mkPostgres [p44] 44 []).

(** Three products, both servers reachable. *)
Definition p1 : Product := mkProduct 1 "a" "first".
Definition p2 : Product := mkProduct 2 "b" "second".
Definition p3 : Product := mkProduct 3 "c" "third".

Definition w123 : World :=
  mkWorld (mkRedis {[ createKey 2 := plain_json p2 ]} [])
          (mkPostgres [p1; p2; p3] 3 []).



(** The doubles of the service tests. *)
Definition newProduct : NewProduct :=
  mkNewProduct "New product to be stored" "Product description".

Definition updatedProduct : NewProduct :=
  mkNewProduct "Updated product" "Updated product description".

Definition oldProduct : Product :=
  mkProduct 4 "Old product" "Older product description".

Definition cache_answering (err : option error) : MockCache :=
  {| onSetProduct := fun _ => err;
     onGetJSONProductById := fun _ => (None, err);
     onCacheDeleteProductById := fun _ => err;
     onClearCache := err |}.

Definition repository_failing (err : error) : MockRepository :=
  {| onGetProduct := fun _ => (None, Some err);
     onGetAllProducts := (None, Some err);
     onGetProductsPaged := fun _ _ => (None, Some err);
     onStoreProduct := fun _ => (0, Some err);
     onUpdateProductById := fun _ _ => (None, Some err);
     onDeleteProductById := fun _ => (None, Some err);
     onDeleteAllProducts := (0, Some err) |}.

Definition repository_holding (p : Product) : MockRepository :=
  {| onGetProduct := fun _ => (Some p, None);
     onGetAllProducts := (Some [p], None);
     onGetProductsPaged := fun _ _ => (Some [p], None);
     onStoreProduct := fun _ => (Id p, None);
     onUpdateProductById := fun _ _ => (Some p, None);
     onDeleteProductById := fun _ => (Some p, None);
     onDeleteAllProducts := (1, None) |}.

End examples.

(** * Vocabulary of the properties *)

(** The value [v] handed back is what the store answered, with a nil error,
    to the call [c] of the run recorded in [tr], passed through [encode]. *)
Definition answered {X V : Type} (c : Call (X * option error)) (encode : X -> V)
           (tr : list Invocation) (v : V) : Prop :=
  exists x, In (Invoked c (Returned (x, None))) tr /\ v = encode x.

(** What section 3 of the specification asks of a value [v] returned with the
    aggregated result [se]: with a critical error the value is the zero value
    of its type; with non-critical errors only, it is the answer of the
    store. *)
Definition value_fits {X V : Type} (zero : V) (c : Call (X * option error))
           (encode : X -> V) (tr : list Invocation) (v : V) (se : ServiceError)
  : Prop :=
  match CriticalError se with
  | Some _ => v = zero
  | None => NonCriticalErrors se <> [] /\ answered c encode tr v
  end.

(** The fault, if any, that the n-th next command sent meets. *)
Fixpoint fault_at (n : nat) (faults : list (option string)) : option string :=
  match n with
  | O => (next_fault faults).1
  | S n => fault_at n (next_fault faults).2
  end.

(** The error of a cache lookup that does not find the key. *)
Definition lookup_error (id : Z) (fault : option string) : error :=
  match fault with
  | None =>
      Errorf_w (Sentinel ErrNotFound)
               (": failed to find product " +:+ pretty id +:+ " in cache")
  | Some text =>
      Errorf_w (Sentinel ErrInternalCache)
               (": failed to get product " +:+ pretty id +:+ " from cache: "
                +:+ text)
  end.

(** The errors of a result of the service in the order in which the handlers
    put them in the container of the request: the critical one first. *)
Definition reported (err : option ServiceError) : list error :=
  match err with
  | Some se => option_list (CriticalError se) ++ NonCriticalErrors se
  | None => []
  end.

(** The critical error of a result of the service, if any. *)
Definition critical_of (err : option ServiceError) : option error :=
  match err with
  | Some se => CriticalError se
  | None => None
  end.

(** The answer of the three handlers of one product to a critical error. *)
Definition failure_reply (critical : error) : handlers.Reply :=
  if errors_Is critical (Sentinel ErrNotFound)
  then handlers.mkReply handlers.StatusNotFound
                        (handlers.EncodedError "Product not found")
  else handlers.mkReply routing.StatusInternalServerError
                        (handlers.EncodedError "Internal server error").

(** The operations of the service, as requests. *)
Inductive Request : Type :=
| ReqGetProductById (id : Z)
| ReqGetAllProducts
| ReqGetProductsPaged (limit offset : Z)
| ReqCreateProduct (product : NewProduct)
| ReqUpdateProductById (id : Z) (product : NewProduct)
| ReqDeleteProductById (id : Z)
| ReqDeleteAllProducts.

Section Invariants.
Context `{Encoder}.

(** The state of the two servers once the service, wired to the adapters,
    has served a request. *)
Definition after (req : Request) (w : app.World) : app.World :=
  match req with
  | ReqGetProductById id =>
      (run app.adapters (service.GetProductById id) w).1.2
  | ReqGetAllProducts =>
      (run app.adapters service.GetAllProducts w).1.2
  | ReqGetProductsPaged limit offset =>
      (run app.adapters (service.GetProductsPaged limit offset) w).1.2
  | ReqCreateProduct product =>
      (run app.adapters (service.CreateProduct product) w).1.2
  | ReqUpdateProductById id product =>
      (run app.adapters (service.UpdateProductById id product) w).1.2
  | ReqDeleteProductById id =>
      (run app.adapters (service.DeleteProductById id) w).1.2
  | ReqDeleteAllProducts =>
      (run app.adapters service.DeleteAllProducts w).1.2
  end.

(** The calls the service makes to a pair of backends to serve a request,
    with their answers. *)
Definition calls {W : Type} (b : Backends W) (req : Request) (w : W)
  : list Invocation :=
  match req with
  | ReqGetProductById id => (run b (service.GetProductById id) w).2
  | ReqGetAllProducts => (run b service.GetAllProducts w).2
  | ReqGetProductsPaged limit offset =>
      (run b (service.GetProductsPaged limit offset) w).2
  | ReqCreateProduct product => (run b (service.CreateProduct product) w).2
  | ReqUpdateProductById id product =>
      (run b (service.UpdateProductById id product) w).2
  | ReqDeleteProductById id => (run b (service.DeleteProductById id) w).2
  | ReqDeleteAllProducts => (run b service.DeleteAllProducts w).2
  end.

(** The state after a list of requests served one after the other. *)
Definition after_all (reqs : list Request) (w : app.World) : app.World :=
  fold_left (fun w req => after req w) reqs w.

(** Every entry of the cache is the serialization of the row that the table
    holds under the id of its key. *)
Definition coherent_with (keys : gmap string string) (rows : list Product)
  : Prop :=
  forall key data,
    keys !! key = Some data ->
    exists p d,
      key = cache.createKey (Id p)
      /\ find (repository.has_id (Id p)) rows = Some p
      /\ Marshal (Some p) = (d, None)
      /\ data = default "" d.

Definition coherent (w : app.World) : Prop :=
  coherent_with (cache.redis_keys (app.redis w))
                (repository.pg_rows (app.postgres w)).

End Invariants.

(** The ids of the table are pairwise distinct and none is ahead of the
    sequence. *)
Definition keyed (db : repository.Postgres) : Prop :=
  NoDup (map Id (repository.pg_rows db))
  /\ Forall (fun p => Id p <= repository.pg_seq db) (repository.pg_rows db).

(** The row that [update_returning_old] writes in the place of [p]. *)
Definition updated (name info : string) (id : Z) (p : Product) : Product :=
  if repository.has_id id p
  then {| Id := Id p; Name := name; AdditionalInfo := info |}
  else p.

(** * Properties *)

(** ** Texts *)

Lemma append_assoc (s1 s2 s3 : string) : (s1 +:+ s2) +:+ s3 = s1 +:+ s2 +:+ s3.
Proof.
  induction s1 as [|c s1 IH]; [reflexivity|].
  change (String c ((s1 +:+ s2) +:+ s3) = String c (s1 +:+ s2 +:+ s3)).
  now rewrite IH.
Qed.

Lemma append_empty_r (s : string) : s +:+ "" = s.
Proof.
  induction s as [|c s IH]; [reflexivity|].
  change (String c (s +:+ "") = String c s).
  now rewrite IH.
Qed.

Lemma written_lines (errs : list error) (buf : string) :
  fold_left (fun buf err => WriteString buf (Error err +:+ nl)) errs buf
  = buf +:+ lines errs.
Proof.
  revert buf.
  induction errs as [|err errs IH]; intros buf; simpl.
  - now rewrite append_empty_r.
  - rewrite IH. unfold WriteString. now rewrite !append_assoc.
Qed.

(** C8, as the code has it: the text of an aggregated result is the fixed
    header [Service error(s)], a line feed and a colon, then the message of
    every non-critical error in the order of the list, then the message of
    the critical error if there is one, each message followed by a line
    feed. *)
Theorem ServiceError_Error_shape (se : ServiceError) :
  ServiceError_Error se = header +:+ rendered_lines se.
Proof.
  unfold ServiceError_Error, rendered_lines.
  rewrite written_lines.
  destruct (CriticalError se) as [critical|]; unfold WriteString, header.
  - change ("" +:+ "Service error(s)" +:+ nl +:+ ":")
      with ("Service error(s)" +:+ nl +:+ ":").
    now rewrite !append_assoc.
  - change ("" +:+ "Service error(s)" +:+ nl +:+ ":")
      with ("Service error(s)" +:+ nl +:+ ":").
    now rewrite append_empty_r.
Qed.

(** C8 as stated fails: for the result of the service test "Repo and cache
    return internal errors" the text is more than the messages, line by
    line: it starts with the header. *)
Lemma ServiceError_Error_not_only_lines :
  let se := NewServiceError (Some (Sentinel ErrInternalDb))
                            [Sentinel ErrInternalCache] in
  rendered_lines se
  = "internal cache error" +:+ nl +:+ "internal database error" +:+ nl
  /\ ServiceError_Error se <> rendered_lines se.
Proof. split; [reflexivity | discriminate]. Qed.

(** ** The service over any pair of backends *)

Section AnyBackends.

Context `{Encoder} {W : Type} (b : Backends W).

(** Running a sequence: the second part starts where the first ended, and a
    panic of the first part ends the run. *)
Lemma run_bind {A B : Type} (p : Prog A) (f : A -> Prog B) (w : W) :
  run b (bind p f) w
  = match run b p w with
    | (Returned a, w1, tr1) =>
        let '(o, w2, tr2) := run b (f a) w1 in (o, w2, tr1 ++ tr2)
    | (Panicked reason, w1, tr1) => (Panicked reason, w1, tr1)
    end.
Proof.
  revert w. induction p as [a | X c k IH]; intros w; cbn.
  - destruct (run b (f a) w) as [[o w2] tr2]. reflexivity.
  - destruct (b X c w) as [[x | reason] w1]; [|reflexivity].
    rewrite IH.
    destruct (run b (k x) w1) as [[[a | reason] w2] tr1]; [|reflexivity].
    destruct (run b (f a) w2) as [[o w3] tr2]. reflexivity.
Qed.

(** C6: when the cache lookup returns without error, [GetProductById]
    returns the bytes the cache gave, unchanged, and no error at all; the
    cache lookup is the only call of the run, so the store is not
    called. *)
Theorem GetProductById_cache_hit
  (id : Z) (w w' : W) (cacheRes : option string) :
  b _ (Cache_GetJSONProductById id) w = (Returned (cacheRes, None), w') ->
  run b (service.GetProductById id) w
  = (Returned (cacheRes, None), w',
     [Invoked (Cache_GetJSONProductById id) (Returned (cacheRes, None))])
  /\ store_calls (run b (service.GetProductById id) w).2 = [].
Proof.
  intros Hget.
  assert (run b (service.GetProductById id) w
          = (Returned (cacheRes, None), w',
             [Invoked (Cache_GetJSONProductById id)
                      (Returned (cacheRes, None))])) as Hrun.
  { cbn. rewrite Hget. reflexivity. }
  split; [exact Hrun | rewrite Hrun; reflexivity].
Qed.

(** C7: when the insert into the store fails, [CreateProduct] returns id
    zero with that failure as the critical error and the insert is the
    only call of the run (no cache write); when the insert succeeds, the
    id the store assigned is returned whatever the cache write answers: a
    failed cache write is the single non-critical error of the result,
    with no critical error. *)
Theorem CreateProduct_store_then_cache (product : NewProduct) (w : W) :
  (forall id dbErr w1,
      b _ (Db_StoreProduct product) w = (Returned (id, Some dbErr), w1) ->
      run b (service.CreateProduct product) w
      = (Returned (0, Some (NewServiceError (Some dbErr) [])), w1,
         [Invoked (Db_StoreProduct product) (Returned (id, Some dbErr))]))
  /\ (forall id w1 cacheErr w2,
      b _ (Db_StoreProduct product) w = (Returned (id, None), w1) ->
      b _ (Cache_SetProduct
             (Some (mkProduct id (NewName product) (NewAdditionalInfo product))))
        w1 = (Returned cacheErr, w2) ->
      let newlyStoredProduct :=
        mkProduct id (NewName product) (NewAdditionalInfo product) in
      run b (service.CreateProduct product) w
      = (Returned (id, match cacheErr with
                       | Some e => Some (NewServiceError None [e])
                       | None => None
                       end), w2,
         [Invoked (Db_StoreProduct product) (Returned (id, None));
          Invoked (Cache_SetProduct (Some newlyStoredProduct))
                  (Returned cacheErr)])).
Proof.
  split.
  - intros id dbErr w1 Hstore. cbn. rewrite Hstore. reflexivity.
  - intros id w1 cacheErr w2 Hstore Hset. cbn. rewrite Hstore. cbn.
    rewrite Hset. destruct cacheErr; reflexivity.
Qed.

(** C2: in [UpdateProductById] and in [DeleteProductById], when the cache
    invalidation answers an error that is [ErrNotFound], the store is
    called next and, when it succeeds, its value is returned with that
    cache error as the only non-critical error and no critical error; when
    the cache invalidation answers any other error, the invalidation is the
    only call of the run (the store is not called) and that error is the
    critical error of the result, with no value. *)
Theorem invalidate_then_store (id : Z) (product : NewProduct) (w : W) :
  (forall cacheErr w1 oldProduct w2,
      b _ (Cache_DeleteProductById id) w = (Returned (Some cacheErr), w1) ->
      errors_Is cacheErr (Sentinel ErrNotFound) = true ->
      b _ (Db_UpdateProductById id product) w1
      = (Returned (oldProduct, None), w2) ->
      run b (service.UpdateProductById id product) w
      = (Returned (oldProduct, Some (NewServiceError None [cacheErr])), w2,
         [Invoked (Cache_DeleteProductById id) (Returned (Some cacheErr));
          Invoked (Db_UpdateProductById id product)
                  (Returned (oldProduct, None))]))
  /\ (forall cacheErr w1,
      b _ (Cache_DeleteProductById id) w = (Returned (Some cacheErr), w1) ->
      errors_Is cacheErr (Sentinel ErrNotFound) = false ->
      run b (service.UpdateProductById id product) w
      = (Returned (None, Some (NewServiceError (Some cacheErr) [])), w1,
         [Invoked (Cache_DeleteProductById id) (Returned (Some cacheErr))]))
  /\ (forall cacheErr w1 deletedProduct w2,
      b _ (Cache_DeleteProductById id) w = (Returned (Some cacheErr), w1) ->
      errors_Is cacheErr (Sentinel ErrNotFound) = true ->
      b _ (Db_DeleteProductById id) w1
      = (Returned (deletedProduct, None), w2) ->
      run b (service.DeleteProductById id) w
      = (Returned (deletedProduct, Some (NewServiceError None [cacheErr])), w2,
         [Invoked (Cache_DeleteProductById id) (Returned (Some cacheErr));
          Invoked (Db_DeleteProductById id)
                  (Returned (deletedProduct, None))]))
  /\ (forall cacheErr w1,
      b _ (Cache_DeleteProductById id) w = (Returned (Some cacheErr), w1) ->
      errors_Is cacheErr (Sentinel ErrNotFound) = false ->
      run b (service.DeleteProductById id) w
      = (Returned (None, Some (NewServiceError (Some cacheErr) [])), w1,
         [Invoked (Cache_DeleteProductById id) (Returned (Some cacheErr))])).
Proof.
  repeat split.
  - intros cacheErr w1 oldProduct w2 Hdel Hnf Hupd.
    cbn. rewrite Hdel, Hnf. cbn. rewrite Hupd. reflexivity.
  - intros cacheErr w1 Hdel Hnf. cbn. rewrite Hdel, Hnf. reflexivity.
  - intros cacheErr w1 deletedProduct w2 Hdel Hnf Hdb.
    cbn. rewrite Hdel, Hnf. cbn. rewrite Hdb. reflexivity.
  - intros cacheErr w1 Hdel Hnf. cbn. rewrite Hdel, Hnf. reflexivity.
Qed.

(** C10: in [GetProductById], when the cache lookup fails, the store
    returns the product and its serialization fails, the result has no
    value, its critical error is the marshalling error, and its
    non-critical errors are the cache error, the error of the cache write
    if it failed, and last the same marshalling error again. *)
Theorem GetProductById_marshalling_error_twice
  (id : Z) (w w1 w2 w3 : W) (cacheRes : option string) (cacheErr : error)
  (dbRes : option Product) (setErr : option error)
  (res : option string) (err : error) :
  b _ (Cache_GetJSONProductById id) w = (Returned (cacheRes, Some cacheErr), w1) ->
  b _ (Db_GetProduct id) w1 = (Returned (dbRes, None), w2) ->
  b _ (Cache_SetProduct dbRes) w2 = (Returned setErr, w3) ->
  Marshal dbRes = (res, Some err) ->
  let marshallingErr := Errorf_prefix_w "service layer error: " err in
  (run b (service.GetProductById id) w).1
  = (Returned (None,
               Some (NewServiceError
                       (Some marshallingErr)
                       ([cacheErr] ++ option_list setErr ++ [marshallingErr]))),
     w3).
Proof.
  intros Hget Hdb Hset Hm. cbn.
  rewrite Hget. cbn. rewrite Hdb. cbn. rewrite Hset. cbn.
  rewrite Hm. destruct setErr; reflexivity.
Qed.

(** Case analysis on what the backends answer along a run. *)
Ltac answers :=
  repeat match goal with
    | H : context [match b ?X ?c ?w with _ => _ end] |- _ =>
        let r := fresh "r" in
        let reason := fresh "reason" in
        let w' := fresh "w" in
        destruct (b X c w) as [[r|reason] w'] eqn:?; cbn in H
    | H : context [run b (match ?e with _ => _ end) _] |- _ =>
        destruct e eqn:?; cbn in H
    | H : context [run b (if ?e then _ else _) _] |- _ =>
        destruct e eqn:?; cbn in H
    | H : (_, _) = (_, _) |- _ => injection H as ?; subst
    | H : Returned _ = Returned _ |- _ => injection H as ?; subst
    | H : Some _ = Some _ |- _ => injection H as ?; subst
    | H : Panicked _ = Returned _ |- _ => discriminate H
    | H : None = Some _ |- _ => discriminate H
    end.

Ltac fits :=
  repeat match goal with
    | |- context [match ?r with Some _ => _ | None => _ end] => destruct r
    end;
  unfold value_fits; cbn;
  first [ reflexivity
        | split; [discriminate | eexists; split; [cbn; eauto | ]];
          repeat match goal with E : Marshal _ = _ |- _ => rewrite E end;
          reflexivity ].

(** C9: for each of the seven operations and whatever the backends answer,
    a result with a critical error comes with the zero value of the
    operation (nil, or 0 for an id or a count), and a result with
    non-critical errors only comes with what the store answered without
    error in that run (serialized, for [GetProductById]). *)
Theorem value_fits_result (w : W) :
  (forall id v se w' tr,
      run b (service.GetProductById id) w = (Returned (v, Some se), w', tr) ->
      value_fits None (Db_GetProduct id) (fun p => (Marshal p).1) tr v se)
  /\ (forall v se w' tr,
      run b service.GetAllProducts w = (Returned (v, Some se), w', tr) ->
      value_fits None Db_GetAllProducts (fun l => l) tr v se)
  /\ (forall limit offset v se w' tr,
      run b (service.GetProductsPaged limit offset) w
      = (Returned (v, Some se), w', tr) ->
      value_fits None (Db_GetProductsPaged limit offset) (fun l => l) tr v se)
  /\ (forall product v se w' tr,
      run b (service.CreateProduct product) w = (Returned (v, Some se), w', tr) ->
      value_fits 0 (Db_StoreProduct product) (fun id => id) tr v se)
  /\ (forall id product v se w' tr,
      run b (service.UpdateProductById id product) w
      = (Returned (v, Some se), w', tr) ->
      value_fits None (Db_UpdateProductById id product) (fun p => p) tr v se)
  /\ (forall id v se w' tr,
      run b (service.DeleteProductById id) w = (Returned (v, Some se), w', tr) ->
      value_fits None (Db_DeleteProductById id) (fun p => p) tr v se)
  /\ (forall v se w' tr,
      run b service.DeleteAllProducts w = (Returned (v, Some se), w', tr) ->
      value_fits 0 Db_DeleteAllProducts (fun n => n) tr v se).
Proof.
  repeat split; intros.
  all: match goal with H : run _ _ _ = _ |- _ => cbn in H end.
  all: answers.
  all: fits.
Qed.

End AnyBackends.

(** ** The service over the Redis cache and the Postgres repository *)

Section OverAdapters.

Context `{Encoder}.

Import cache repository app.

Lemma find_has_id (id : Z) (rows : list Product) (p : Product) :
  find (has_id id) rows = Some p -> Id p = id.
Proof.
  intros Hfind. apply find_some in Hfind as [_ Hid].
  unfold has_id in Hid. now apply bool_decide_eq_true in Hid.
Qed.

(** C1, as the code has it: for an id that the store holds and the cache
    does not, [GetProductById] returns the serialized product of the store
    and no critical error, and the error of the cache lookup
    ([ErrNotFound] when the cache answered) is always its first
    non-critical error.  When the write that repopulates the cache
    succeeds this is the only one and the cache then holds the serialized
    product; when the write fails its error is the second and last one. *)
Theorem GetProductById_cache_miss
  (w : World) (id : Z) (p : Product) (js : string) :
  find (has_id id) (pg_rows (postgres w)) = Some p ->
  redis_keys (redis w) !! createKey id = None ->
  fault_at 0 (pg_faults (postgres w)) = None ->
  Marshal (Some p) = (Some js, None) ->
  exists extra w' tr,
    run adapters (service.GetProductById id) w
    = (Returned (Some js,
                 Some (NewServiceError
                         None
                         (lookup_error id (fault_at 0 (redis_faults (redis w)))
                          :: extra))),
       w', tr)
    /\ match fault_at 1 (redis_faults (redis w)) with
       | None =>
           extra = [] /\ redis_keys (redis w') !! createKey id = Some js
       | Some text =>
           extra = [Errorf_w (Sentinel ErrInternalCache)
                      (": failed to store product to cache: " +:+ text)]
       end.
Proof.
  intros Hfind Hmiss Hdb Hm.
  pose proof (find_has_id _ _ _ Hfind) as Hid.
  destruct w as [[keys rf] [rows seq pf]]; cbn in *.
  destruct pf as [|[text|] pf]; try discriminate Hdb.
  all: destruct rf as [|[t1|] [|[t2|] rf]].
  all: repeat progress
         (cbn;
          unfold on_cache, on_store, GetJSONProductById, client_Get,
            GetProduct, select_by_id, SetProduct, client_Set;
          rewrite ?Hmiss, ?Hfind, ?Hm, ?Hid).
  all: do 3 eexists; (split; [reflexivity|]); cbn.
  all: try reflexivity.
  all: split; [reflexivity | apply lookup_insert_eq].
Qed.

(** C5: with both servers reachable and the next value of the sequence
    not yet a key of the table, [CreateProduct] returns that value as the
    id, without error, and [GetProductById] on it, right after, returns the
    serialization of the product made of this id and the submitted name and
    additional info, without error; its only call is the cache lookup, so
    the store is not asked. *)
Theorem CreateProduct_then_GetProductById
  (w : World) (product : NewProduct) (js : string) :
  healthy w ->
  let id := pg_seq (postgres w) + 1 in
  find (has_id id) (pg_rows (postgres w)) = None ->
  Marshal (Some (mkProduct id (NewName product) (NewAdditionalInfo product)))
  = (Some js, None) ->
  exists w1 tr1,
    run adapters (service.CreateProduct product) w
    = (Returned (id, None), w1, tr1)
    /\ run adapters (service.GetProductById id) w1
       = (Returned (Some js, None), w1,
          [Invoked (Cache_GetJSONProductById id) (Returned (Some js, None))]).
Proof.
  intros [Hrf Hpf] id Hfresh Hm.
  destruct w as [[keys rf] [rows seq pf]]; cbn in *. subst rf pf id.
  repeat progress
    (cbn;
     unfold on_cache, on_store, StoreProduct, insert_returning_id,
       SetProduct, client_Set, GetJSONProductById, client_Get;
     rewrite ?Hfresh, ?Hm, ?lookup_insert_eq).
  do 2 eexists. split; [reflexivity|].
  repeat progress
    (cbn;
     unfold on_cache, GetJSONProductById, client_Get;
     rewrite ?lookup_insert_eq).
  reflexivity.
Qed.


(** Over the adapters [CreateProduct] always returns: once the insert got
    through, the id of the sequence comes back whatever the cache and the
    encoder do, with at most one error, a non-critical one. *)
Lemma CreateProduct_returns_assigned_id (w : World) (product : NewProduct) :
  fault_at 0 (pg_faults (postgres w)) = None ->
  find (has_id (pg_seq (postgres w) + 1)) (pg_rows (postgres w)) = None ->
  exists err w' tr,
    run adapters (service.CreateProduct product) w
    = (Returned (pg_seq (postgres w) + 1, err), w', tr)
    /\ match err with
       | None => True
       | Some se =>
           CriticalError se = None /\ length (NonCriticalErrors se) = 1%nat
       end.
Proof.
  intros Hpg Hfresh.
  destruct w as [[keys rf] [rows seq pf]]; cbn in *.
  destruct pf as [|[t|] pf]; cbn in Hpg; try discriminate Hpg.
  all: destruct (Marshal (Some (mkProduct (seq + 1) (NewName product)
                                          (NewAdditionalInfo product))))
         as [data [merr|]] eqn:Hm.
  all: destruct rf as [|[t|] rf].
  all: repeat progress
         (cbn;
          unfold on_cache, on_store, StoreProduct, insert_returning_id,
            SetProduct, client_Set;
          rewrite ?Hfresh, ?Hm).
  all: do 3 eexists; split; [reflexivity|]; cbn; auto.
Qed.

Lemma scan_rows_all (rows products : list Product) :
  scan_rows products rows = products ++ rows.
Proof.
  revert products. unfold scan_rows.
  induction rows as [|row rows IH]; intros products; cbn.
  - now rewrite app_nil_r.
  - rewrite IH. now rewrite <- app_assoc.
Qed.

(** The service and the repository apply a limit and an offset as such:
    with the store reachable and the limit within what [make] can
    allocate, the listing is the table without its first [offset] rows,
    cut after [limit] rows. *)
Lemma GetProductsPaged_page (w : World) (limit offset : Z) :
  makeslice_ok limit = true ->
  0 <= offset ->
  fault_at 0 (pg_faults (postgres w)) = None ->
  fault_at 1 (pg_faults (postgres w)) = None ->
  exists w' tr,
    run adapters (service.GetProductsPaged limit offset) w
    = (Returned (Some (firstn (Z.to_nat limit)
                              (skipn (Z.to_nat offset) (pg_rows (postgres w)))),
                 None), w', tr).
Proof.
  intros Hcap Hoff H0 H1.
  assert (0 <= limit) as Hlim.
  { unfold makeslice_ok in Hcap. apply bool_decide_eq_true in Hcap. lia. }
  destruct w as [[keys rf] [rows seq pf]].
  destruct pf as [|[t0|] [|[t1|] pf]]; cbn in H0, H1; try discriminate.
  all: cbn; unfold on_store, GetProductsPaged; rewrite Hcap; cbn.
  all: unfold select_limit_offset; cbn.
  all: destruct (decide (limit < 0)); [lia|].
  all: destruct (decide (offset < 0)); [lia|].
  all: cbn; rewrite scan_rows_all; do 2 eexists; reflexivity.
Qed.

(** A limit that [make] cannot allocate ends the listing in a panic before
    the store is asked. *)
Lemma GetProductsPaged_panics (w : World) (limit offset : Z) :
  makeslice_ok limit = false ->
  run adapters (service.GetProductsPaged limit offset) w
  = (Panicked "runtime error: makeslice: cap out of range", w,
     [Invoked (Db_GetProductsPaged limit offset)
              (Panicked "runtime error: makeslice: cap out of range")]).
Proof.
  intros Hcap. destruct w as [r db].
  cbn. unfold on_store, GetProductsPaged. rewrite Hcap. reflexivity.
Qed.

(** What the handler makes of a paged request whose two parameters parse:
    the page is cut with the request's offset as the limit and the request's
    limit as the offset. *)
Lemma GetProducts_paged_as_called
  (w : World) (offset limit : string) (o l : Z) (c : routing.ErrorContainer) :
  offset <> "" -> limit <> "" ->
  routing.ParseInt offset = inl o -> routing.ParseInt limit = inl l ->
  1 <= o -> 1 <= l ->
  makeslice_ok o = true ->
  fault_at 0 (pg_faults (postgres w)) = None ->
  fault_at 1 (pg_faults (postgres w)) = None ->
  exists w' tr,
    run adapters (routing.GetProducts offset limit c) w
    = (Returned (routing.mkResponse
                   routing.StatusOK
                   (routing.JsonProducts
                      (Some (firstn (Z.to_nat o)
                                    (skipn (Z.to_nat l) (pg_rows (postgres w)))))),
                 c), w', tr).
Proof.
  intros Ho Hl Hpo Hpl Hlo Hll Hcap H0 H1.
  destruct (GetProductsPaged_page w o l Hcap ltac:(lia) H0 H1) as (w' & tr & Hrun).
  unfold routing.GetProducts, routing.parseAndValidate.
  rewrite !bool_decide_eq_true_2 by assumption. cbn [andb].
  rewrite Hpo, Hpl.
  rewrite !bool_decide_eq_false_2 by lia.
  exists w', (tr ++ []).
  change (r ← service.GetProductsPaged o l; Ret (routing.respond_listing c r))
    with (bind (service.GetProductsPaged o l)
               (fun r => Ret (routing.respond_listing c r))).
  rewrite run_bind, Hrun. reflexivity.
Qed.

End OverAdapters.

(** ** The properties at the inputs of the examples *)

Section Instances.

Import cache repository app mocks examples.

(** C1 as stated fails on the example of section 8 of the specification:
    the store holds product 44, the cache is reachable and does not hold
    it, the write that repopulates the cache succeeds (the cache holds the
    product afterwards), and yet the result carries one non-critical
    error, the [ErrNotFound] of the cache lookup, not zero. *)
Lemma GetProductById_cache_miss_one_error :
  let r := run (adapters (H := plain_encoder))
               (service.GetProductById (H := plain_encoder) 44) w44 in
  find (has_id 44) (pg_rows (postgres w44)) = Some p44
  /\ redis_keys (redis w44) !! createKey 44 = None
  /\ healthy w44
  /\ redis_keys (redis r.1.2) !! createKey 44 = Some (plain_json p44)
  /\ r.1.1
     = Returned
         (Some (plain_json p44),
          Some (NewServiceError
                  None
                  [Wrapped "product not found: failed to find product 44 in cache"
                           (Sentinel ErrNotFound)]))
  /\ ~ (exists v, r.1.1 = Returned (v, None)).
Proof.
  cbv zeta. repeat split; try reflexivity.
  intros [v Hv]. vm_compute in Hv. discriminate Hv.
Qed.

(** [GetProductById_cache_miss] on the example of section 8. *)
Lemma GetProductById_cache_miss_witness :
  (find (has_id 44) (pg_rows (postgres w44)) = Some p44
   /\ redis_keys (redis w44) !! createKey 44 = None
   /\ fault_at 0 (pg_faults (postgres w44)) = None
   /\ plain_encoder (Some p44) = (Some (plain_json p44), None))
  /\ exists extra w' tr,
      run (adapters (H := plain_encoder))
          (service.GetProductById (H := plain_encoder) 44) w44
      = (Returned (Some (plain_json p44),
                   Some (NewServiceError
                           None
                           (lookup_error 44 (fault_at 0 (redis_faults (redis w44)))
                            :: extra))),
         w', tr)
      /\ match fault_at 1 (redis_faults (redis w44)) with
         | None =>
             extra = []
             /\ redis_keys (redis w') !! createKey 44 = Some (plain_json p44)
         | Some text =>
             extra = [Errorf_w (Sentinel ErrInternalCache)
                        (": failed to store product to cache: " +:+ text)]
         end.
Proof.
  split.
  - repeat split; reflexivity.
  - apply (GetProductById_cache_miss (H := plain_encoder) w44 44 p44
                                     (plain_json p44)); reflexivity.
Defined.

(** The example of section 8 goes on: the second call, on the state the
    first one left, is answered by the cache alone and without error. *)
Example GetProductById_second_call_hits_cache :
  let b := adapters (H := plain_encoder) in
  let first := run b (service.GetProductById (H := plain_encoder) 44) w44 in
  let second := run b (service.GetProductById (H := plain_encoder) 44) first.1.2 in
  second.1.1 = Returned (Some (plain_json p44), None)
  /\ second.2 = [Invoked (Cache_GetJSONProductById 44)
                         (Returned (Some (plain_json p44), None))].
Proof. cbv zeta. split; reflexivity. Qed.

(** [GetProductById_cache_hit] over the adapters, product 44 being cached. *)
Lemma GetProductById_cache_hit_witness :
  adapters (H := plain_encoder) _ (Cache_GetJSONProductById 44) w44_cached
  = (Returned (Some (plain_json p44), None), w44_cached)
  /\ (run (adapters (H := plain_encoder))
          (service.GetProductById (H := plain_encoder) 44) w44_cached
      = (Returned (Some (plain_json p44), None), w44_cached,
         [Invoked (Cache_GetJSONProductById 44)
                  (Returned (Some (plain_json p44), None))])
      /\ store_calls
           (run (adapters (H := plain_encoder))
                (service.GetProductById (H := plain_encoder) 44) w44_cached).2
         = []).
Proof.
  split.
  - reflexivity.
  - apply (GetProductById_cache_hit (H := plain_encoder)
             (adapters (H := plain_encoder)) 44 w44_cached w44_cached
             (Some (plain_json p44))).
    reflexivity.
Defined.

(** [GetProductById_marshalling_error_twice] over the adapters with an
    encoder that fails: the cache write fails on the encoder as well. *)
Lemma GetProductById_marshalling_error_twice_witness :
  let b := adapters (H := failing_encoder) in
  let cacheErr :=
    Wrapped "product not found: failed to find product 44 in cache"
            (Sentinel ErrNotFound) in
  let setErr :=
    Wrapped "internal cache error: error marshalling product: json: unsupported value"
            (Sentinel ErrInternalCache) in
  let marshallingErr :=
    Wrapped "service layer error: json: unsupported value"
            (Foreign "json: unsupported value") in
  (b _ (Cache_GetJSONProductById 44) w44 = (Returned (None, Some cacheErr), w44)
   /\ b _ (Db_GetProduct 44) w44 = (Returned (Some p44, None), w44)
   /\ b _ (Cache_SetProduct (Some p44)) w44 = (Returned (Some setErr), w44)
   /\ failing_encoder (Some p44) = (None, Some (Foreign "json: unsupported value")))
  /\ (run b (service.GetProductById (H := failing_encoder) 44) w44).1
     = (Returned (None,
                  Some (NewServiceError (Some marshallingErr)
                                        [cacheErr; setErr; marshallingErr])),
        w44).
Proof.
  cbv zeta. split.
  - repeat split; reflexivity.
  - apply (GetProductById_marshalling_error_twice
             (H := failing_encoder) (adapters (H := failing_encoder))
             44 w44 w44 w44 w44 None _ (Some p44) (Some _) None
             (Foreign "json: unsupported value")); reflexivity.
Defined.

(** [CreateProduct_store_then_cache] on the doubles of the service tests
    "db internal error" and "product added to storage, cache internal
    error". *)
Lemma CreateProduct_store_then_cache_witness :
  let failing := doubles (cache_answering None)
                         (repository_failing (Sentinel ErrInternalDb)) in
  let degraded := doubles (cache_answering (Some (Sentinel ErrInternalCache)))
                          (repository_holding (mkProduct 2 "" "")) in
  (failing _ (Db_StoreProduct newProduct) tt
   = (Returned (0, Some (Sentinel ErrInternalDb)), tt)
   /\ run failing (service.CreateProduct newProduct) tt
      = (Returned (0, Some (NewServiceError (Some (Sentinel ErrInternalDb)) [])),
         tt,
         [Invoked (Db_StoreProduct newProduct)
                  (Returned (0, Some (Sentinel ErrInternalDb)))]))
  /\ (degraded _ (Db_StoreProduct newProduct) tt = (Returned (2, None), tt)
      /\ degraded _ (Cache_SetProduct
                       (Some (mkProduct 2 (NewName newProduct)
                                        (NewAdditionalInfo newProduct)))) tt
         = (Returned (Some (Sentinel ErrInternalCache)), tt)
      /\ run degraded (service.CreateProduct newProduct) tt
         = (Returned (2, Some (NewServiceError
                                 None [Sentinel ErrInternalCache])),
            tt,
            [Invoked (Db_StoreProduct newProduct) (Returned (2, None));
             Invoked (Cache_SetProduct
                        (Some (mkProduct 2 (NewName newProduct)
                                         (NewAdditionalInfo newProduct))))
                     (Returned (Some (Sentinel ErrInternalCache)))])).
Proof.
  cbv zeta. split.
  - split; [reflexivity|].
    apply (proj1 (CreateProduct_store_then_cache
                    (doubles (cache_answering None)
                             (repository_failing (Sentinel ErrInternalDb)))
                    newProduct tt)).
    reflexivity.
  - split; [reflexivity|]. split; [reflexivity|].
    apply (proj2 (CreateProduct_store_then_cache
                    (doubles (cache_answering (Some (Sentinel ErrInternalCache)))
                             (repository_holding (mkProduct 2 "" "")))
                    newProduct tt) 2 tt (Some (Sentinel ErrInternalCache)) tt);
      reflexivity.
Defined.

(** [invalidate_then_store] on the doubles of the service tests "product not
    found in cache" (update) and "cache returns internal error" (delete). *)
Lemma invalidate_then_store_witness :
  let absent := doubles (cache_answering (Some (Sentinel ErrNotFound)))
                        (repository_holding oldProduct) in
  let down := doubles (cache_answering (Some (Sentinel ErrInternalCache)))
                      (repository_holding oldProduct) in
  (absent _ (Cache_DeleteProductById 4) tt
   = (Returned (Some (Sentinel ErrNotFound)), tt)
   /\ errors_Is (Sentinel ErrNotFound) (Sentinel ErrNotFound) = true
   /\ absent _ (Db_UpdateProductById 4 updatedProduct) tt
      = (Returned (Some oldProduct, None), tt)
   /\ run absent (service.UpdateProductById 4 updatedProduct) tt
      = (Returned (Some oldProduct,
                   Some (NewServiceError None [Sentinel ErrNotFound])),
         tt,
         [Invoked (Cache_DeleteProductById 4)
                  (Returned (Some (Sentinel ErrNotFound)));
          Invoked (Db_UpdateProductById 4 updatedProduct)
                  (Returned (Some oldProduct, None))]))
  /\ (down _ (Cache_DeleteProductById 4) tt
      = (Returned (Some (Sentinel ErrInternalCache)), tt)
      /\ errors_Is (Sentinel ErrInternalCache) (Sentinel ErrNotFound) = false
      /\ run down (service.DeleteProductById 4) tt
         = (Returned (None,
                      Some (NewServiceError
                              (Some (Sentinel ErrInternalCache)) [])),
            tt,
            [Invoked (Cache_DeleteProductById 4)
                     (Returned (Some (Sentinel ErrInternalCache)))])).
Proof.
  cbv zeta. split.
  - do 3 (split; [reflexivity|]).
    apply (proj1 (invalidate_then_store
                    (doubles (cache_answering (Some (Sentinel ErrNotFound)))
                             (repository_holding oldProduct))
                    4 updatedProduct tt)
             (Sentinel ErrNotFound) tt (Some oldProduct) tt); reflexivity.
  - do 2 (split; [reflexivity|]).
    apply (proj2 (proj2 (proj2
             (invalidate_then_store
                (doubles (cache_answering (Some (Sentinel ErrInternalCache)))
                         (repository_holding oldProduct))
                4 updatedProduct tt)))
             (Sentinel ErrInternalCache) tt); reflexivity.
Defined.

(** [value_fits_result] on the doubles of the service tests "Repo and cache
    return internal errors" and "Product update - product not found in
    cache". *)
Lemma value_fits_result_witness :
  let broken := doubles (cache_answering (Some (Sentinel ErrInternalCache)))
                        (repository_failing (Sentinel ErrInternalDb)) in
  let absent := doubles (cache_answering (Some (Sentinel ErrNotFound)))
                        (repository_holding oldProduct) in
  let se1 := NewServiceError (Some (Sentinel ErrInternalDb))
                             [Sentinel ErrInternalCache] in
  let tr1 := [Invoked (Cache_GetJSONProductById 6)
                      (Returned (None, Some (Sentinel ErrInternalCache)));
              Invoked (Db_GetProduct 6)
                      (Returned (None, Some (Sentinel ErrInternalDb)))] in
  let se2 := NewServiceError None [Sentinel ErrNotFound] in
  let tr2 := [Invoked (Cache_DeleteProductById 4)
                      (Returned (Some (Sentinel ErrNotFound)));
              Invoked (Db_UpdateProductById 4 updatedProduct)
                      (Returned (Some oldProduct, None))] in
  (run broken (service.GetProductById (H := plain_encoder) 6) tt
   = (Returned (None, Some se1), tt, tr1)
   /\ value_fits None (Db_GetProduct 6)
                 (fun p => (plain_encoder p).1) tr1 None se1)
  /\ (run absent (service.UpdateProductById 4 updatedProduct) tt
      = (Returned (Some oldProduct, Some se2), tt, tr2)
      /\ value_fits None (Db_UpdateProductById 4 updatedProduct)
                    (fun p => p) tr2 (Some oldProduct) se2).
Proof.
  cbv zeta. split.
  - split; [reflexivity|].
    apply (proj1 (value_fits_result
                    (H := plain_encoder)
                    (doubles (cache_answering (Some (Sentinel ErrInternalCache)))
                             (repository_failing (Sentinel ErrInternalDb)))
                    tt) 6 None _ tt _).
    reflexivity.
  - split; [reflexivity|].
    apply (proj1 (proj2 (proj2 (proj2 (proj2
             (value_fits_result
                (H := plain_encoder)
                (doubles (cache_answering (Some (Sentinel ErrNotFound)))
                         (repository_holding oldProduct))
                tt)))))
             4 updatedProduct (Some oldProduct) _ tt _).
    reflexivity.
Defined.

(** [CreateProduct_then_GetProductById] on a store of three products: the new
    product gets id 4. *)
Lemma CreateProduct_then_GetProductById_witness :
  let created := mkProduct 4 (NewName newProduct) (NewAdditionalInfo newProduct) in
  (healthy w123
   /\ find (has_id (pg_seq (postgres w123) + 1)) (pg_rows (postgres w123)) = None
   /\ plain_encoder (Some created) = (Some (plain_json created), None))
  /\ exists w1 tr1,
      run (adapters (H := plain_encoder)) (service.CreateProduct newProduct) w123
      = (Returned (4, None), w1, tr1)
      /\ run (adapters (H := plain_encoder))
             (service.GetProductById (H := plain_encoder) 4) w1
         = (Returned (Some (plain_json created), None), w1,
            [Invoked (Cache_GetJSONProductById 4)
                     (Returned (Some (plain_json created), None))]).
Proof.
  cbv zeta. split.
  - split; [split; reflexivity|]. split; reflexivity.
  - apply (CreateProduct_then_GetProductById
             (H := plain_encoder) w123 newProduct
             (plain_json (mkProduct 4 (NewName newProduct)
                                    (NewAdditionalInfo newProduct)))).
    + split; reflexivity.
    + reflexivity.
    + reflexivity.
Defined.


(** C3 at three requests the program can receive, the store holding
    products 1, 2 and 3 in this order and being reachable.

    [GET /products?limit=1&offset=2] denotes the page made of product 3
    alone; the handler hands its offset to the service as the limit and its
    limit as the offset, and answers 200 with products 2 and 3.

    [GET /products?limit=1&offset=0] is the first page; the handler
    rejects the offset and answers 400.

    [GetProductsPaged] of the service with the limit 9223372036854775807
    and the offset 0 does not return: the repository panics while sizing
    its result. *)
Theorem GetProducts_page_of_the_request :
  let b := adapters (H := plain_encoder) in
  firstn 1 (skipn 2 (pg_rows (postgres w123))) = [p3]
  /\ (run b (routing.GetProducts "2" "1" []) w123).1.1
     = Returned (routing.mkResponse 200 (routing.JsonProducts (Some [p2; p3])),
                 [])
  /\ (run b (routing.GetProducts "0" "1" []) w123).1.1
     = Returned (routing.mkResponse 400 (routing.JsonError "Invalid offset"),
                 [Foreign "hanlder error: invalid offset: has value 0, must be ge 1"])
  /\ (run b (service.GetProductsPaged 9223372036854775807 0) w123).1.1
     = Panicked "runtime error: makeslice: cap out of range".
Proof.
  cbv zeta. repeat split; vm_compute; reflexivity.
Qed.

End Instances.


(** * Further properties *)

(** Evaluating a run over the adapters, the answers of the servers being
    known. *)
Ltac evaluate :=
  repeat progress
    (cbn;
     unfold app.on_cache, app.on_store,
       cache.GetJSONProductById, cache.client_Get, cache.SetProduct,
       cache.client_Set, cache.DeleteProductById, cache.client_Del,
       cache.ClearCache, cache.client_FlushDB,
       repository.GetProduct, repository.select_by_id,
       repository.GetAllProducts, repository.select_all, repository.rows_Err,
       repository.GetProductsPaged, repository.select_limit_offset,
       repository.StoreProduct, repository.insert_returning_id,
       repository.UpdateProductById, repository.update_returning_old,
       repository.DeleteProductById, repository.delete_returning,
       repository.DeleteAllProducts, repository.Begin, repository.tx_count,
       repository.tx_truncate, repository.tx_Commit, repository.tx_Rollback,
       repository.sent;
     repeat match goal with
       | E : ?x = _ |- context [?x] => rewrite E
       end).

(** ** The cache stays coherent with the table *)

Section Coherence.
Context `{Encoder}.
Import cache repository app.

Lemma createKey_inj (id1 id2 : Z) : createKey id1 = createKey id2 -> id1 = id2.
Proof.
  unfold createKey. intros Heq.
  apply (inj (String.app "product:")) in Heq.
  now apply (inj pretty) in Heq.
Qed.

Lemma find_app_found {A} (f : A -> bool) (l l' : list A) (x : A) :
  find f l = Some x -> find f (l ++ l') = Some x.
Proof.
  induction l as [|a l IH]; cbn; [discriminate|].
  destruct (f a); [trivial | exact IH].
Qed.

Lemma find_app_new {A} (f : A -> bool) (l : list A) (x : A) :
  find f l = None -> f x = true -> find f (l ++ [x]) = Some x.
Proof.
  intros Hnone Hx. induction l as [|a l IH]; cbn in *.
  - now rewrite Hx.
  - destruct (f a); [discriminate | now apply IH].
Qed.

Lemma has_id_true (id : Z) (p : Product) : has_id id p = true <-> Id p = id.
Proof. unfold has_id. apply bool_decide_eq_true. Qed.

Lemma has_id_false (id : Z) (p : Product) : has_id id p = false <-> Id p <> id.
Proof. unfold has_id. apply bool_decide_eq_false. Qed.

Lemma Id_updated (name info : string) (id : Z) (p : Product) :
  Id (updated name info id p) = Id p.
Proof. unfold updated. now destruct (has_id id p). Qed.

Lemma find_updated_other (name info : string) (id id' : Z) (rows : list Product) :
  id' <> id ->
  find (has_id id') (map (updated name info id) rows) = find (has_id id') rows.
Proof.
  intros Hne. induction rows as [|p rows IH]; cbn; [reflexivity|].
  destruct (has_id id' p) eqn:Hp.
  - apply has_id_true in Hp.
    assert (has_id id p = false) as Hq by (apply has_id_false; congruence).
    assert (updated name info id p = p) as -> by (unfold updated; now rewrite Hq).
    assert (has_id id' p = true) as -> by now apply has_id_true.
    reflexivity.
  - assert (has_id id' (updated name info id p) = false) as ->.
    { apply has_id_false. rewrite Id_updated. now apply has_id_false. }
    exact IH.
Qed.

Lemma find_updated_same (name info : string) (id : Z) (rows : list Product)
      (old : Product) :
  find (has_id id) rows = Some old ->
  find (has_id id) (map (updated name info id) rows)
  = Some {| Id := Id old; Name := name; AdditionalInfo := info |}.
Proof.
  induction rows as [|p rows IH]; cbn; [discriminate|].
  destruct (has_id id p) eqn:Hp.
  - intros [= ->].
    assert (updated name info id old
            = {| Id := Id old; Name := name; AdditionalInfo := info |}) as ->
        by (unfold updated; now rewrite Hp).
    apply has_id_true in Hp.
    assert (has_id id {| Id := Id old; Name := name; AdditionalInfo := info |}
            = true) as -> by now apply has_id_true.
    reflexivity.
  - intros Hfind.
    assert (has_id id (updated name info id p) = false) as ->.
    { apply has_id_false. rewrite Id_updated. now apply has_id_false. }
    now apply IH.
Qed.

Lemma find_filter_other (id id' : Z) (rows : list Product) :
  id' <> id ->
  find (has_id id') (List.filter (fun q => negb (has_id id q)) rows)
  = find (has_id id') rows.
Proof.
  intros Hne. induction rows as [|p rows IH]; cbn; [reflexivity|].
  destruct (has_id id p) eqn:Hp; cbn.
  - apply has_id_true in Hp.
    assert (has_id id' p = false) as -> by (apply has_id_false; congruence).
    exact IH.
  - destruct (has_id id' p); [reflexivity | exact IH].
Qed.

Lemma find_filter_same (id : Z) (rows : list Product) :
  find (has_id id) (List.filter (fun q => negb (has_id id q)) rows) = None.
Proof.
  induction rows as [|p rows IH]; cbn; [reflexivity|].
  destruct (has_id id p) eqn:Hp; cbn; [exact IH | now rewrite Hp].
Qed.

Lemma coherent_empty (rows : list Product) : coherent_with ∅ rows.
Proof. intros key data Hk. now rewrite lookup_empty in Hk. Qed.

Lemma coherent_delete (key : string) (keys : gmap string string)
      (rows : list Product) :
  coherent_with keys rows -> coherent_with (delete key keys) rows.
Proof.
  intros Hc k data Hk. apply lookup_delete_Some in Hk as [_ Hk]. eauto.
Qed.

Lemma coherent_insert (keys : gmap string string) (rows : list Product)
      (p : Product) (d : option string) :
  coherent_with keys rows ->
  find (has_id (Id p)) rows = Some p ->
  Marshal (Some p) = (d, None) ->
  coherent_with (<[createKey (Id p) := default "" d]> keys) rows.
Proof.
  intros Hc Hfind Hm k data Hk.
  apply lookup_insert_Some in Hk as [[<- <-] | [_ Hk]]; [|eauto].
  exists p, d. auto.
Qed.

Lemma coherent_append (keys : gmap string string) (rows : list Product)
      (p : Product) :
  coherent_with keys rows -> coherent_with keys (rows ++ [p]).
Proof.
  intros Hc k data Hk. destruct (Hc k data Hk) as (q & d & ? & Hfind & ? & ?).
  exists q, d. eauto using find_app_found.
Qed.

Lemma coherent_updated (keys : gmap string string) (rows : list Product)
      (name info : string) (id : Z) :
  keys !! createKey id = None ->
  coherent_with keys rows ->
  coherent_with keys (map (updated name info id) rows).
Proof.
  intros Hnone Hc k data Hk.
  destruct (Hc k data Hk) as (q & d & -> & Hfind & ? & ?).
  exists q, d. repeat split; trivial.
  rewrite find_updated_other; [exact Hfind|].
  intros Heq. rewrite Heq in Hk. congruence.
Qed.

Lemma coherent_filtered (keys : gmap string string) (rows : list Product)
      (id : Z) :
  keys !! createKey id = None ->
  coherent_with keys rows ->
  coherent_with keys (List.filter (fun q => negb (has_id id q)) rows).
Proof.
  intros Hnone Hc k data Hk.
  destruct (Hc k data Hk) as (q & d & -> & Hfind & ? & ?).
  exists q, d. repeat split; trivial.
  rewrite find_filter_other; [exact Hfind|].
  intros Heq. rewrite Heq in Hk. congruence.
Qed.

Lemma errors_Is_wrapped_sentinel (s t : sentinel) (rest : string) :
  errors_Is (Errorf_w (Sentinel s) rest) (Sentinel t) = bool_decide (s = t).
Proof.
  unfold Errorf_w. cbn [errors_Is].
  destruct (decide (Wrapped (Error (Sentinel s) +:+ rest) (Sentinel s)
                    = Sentinel t)) as [Heq|_]; [discriminate Heq|].
  destruct (decide (Sentinel s = Sentinel t)) as [Heq|Hne].
  - injection Heq as ->. now rewrite bool_decide_eq_true_2.
  - rewrite bool_decide_eq_false_2; [reflexivity | congruence].
Qed.

Lemma not_found_is_not_found (rest : string) :
  errors_Is (Errorf_w (Sentinel ErrNotFound) rest) (Sentinel ErrNotFound) = true.
Proof. now rewrite errors_Is_wrapped_sentinel. Qed.

Lemma internal_cache_is_not_not_found (rest : string) :
  errors_Is (Errorf_w (Sentinel ErrInternalCache) rest) (Sentinel ErrNotFound)
  = false.
Proof. now rewrite errors_Is_wrapped_sentinel. Qed.

#[local] Arguments errors_Is : simpl never.
#[local] Arguments Errorf_w : simpl never.

Ltac settle :=
  evaluate;
  repeat (first [ rewrite not_found_is_not_found
                | rewrite internal_cache_is_not_not_found
                | rewrite decide_False by lia
                | rewrite decide_True by lia ];
          evaluate).

Ltac coherence :=
  match goal with
  | |- coherent_with _ _ => assumption
  | |- coherent_with ∅ _ => apply coherent_empty
  | |- coherent_with (<[createKey (Id ?p) := _]> _) _ =>
      apply (coherent_insert _ _ p); assumption
  | |- coherent_with (delete _ _) (map _ _) =>
      apply coherent_updated;
      [apply lookup_delete_eq | apply coherent_delete; assumption]
  | |- coherent_with (delete _ _) (List.filter _ _) =>
      apply coherent_filtered;
      [apply lookup_delete_eq | apply coherent_delete; assumption]
  | |- coherent_with (delete _ _) _ => apply coherent_delete; assumption
  | |- coherent_with _ (map _ _) => apply coherent_updated; assumption
  | |- coherent_with _ (List.filter _ _) => apply coherent_filtered; assumption
  | |- coherent_with _ (_ ++ _) => apply coherent_append; assumption
  end.

(** Whatever the faults of the two connections, serving a request leaves
    every entry of the cache equal to the serialization of the row the table
    holds under that id, if that was so before. *)
Theorem coherent_after (req : Request) (w : World) :
  coherent w -> coherent (after req w).
Proof.
  unfold coherent, after.
  destruct w as [[keys rf] [rows seq pf]]; cbn [redis postgres redis_keys pg_rows].
  intros Hc.
  destruct req as [id | | limit offset | product | id product | id | ].
  - (* GetProductById *)
    destruct (keys !! createKey id) as [data|] eqn:Hk.
    all: destruct rf as [|[t1|] [|[t2|] rf]].
    all: destruct pf as [|[u1|] pf].
    all: destruct (find (has_id id) rows) as [p|] eqn:Hfind.
    all: try (pose proof (find_has_id _ _ _ Hfind) as Hid; subst id).
    all: try destruct (Marshal (Some p)) as [d [merr|]] eqn:Hm.
    all: settle; coherence.
  - (* GetAllProducts *)
    destruct pf as [|[u1|] [|[u2|] pf]]; settle; coherence.
  - (* GetProductsPaged *)
    destruct (makeslice_ok limit) eqn:Hcap.
    all: destruct pf as [|[u1|] [|[u2|] pf]]; settle.
    all: repeat match goal with
           | |- context [decide ?P] => destruct (decide P); settle
           end.
    all: coherence.
  - (* CreateProduct *)
    destruct pf as [|[u1|] pf].
    all: destruct (find (has_id (seq + 1)) rows) as [q|] eqn:Hfind.
    all: destruct (Marshal (Some (mkProduct (seq + 1) (NewName product)
                                            (NewAdditionalInfo product))))
           as [d [merr|]] eqn:Hm.
    all: destruct rf as [|[t1|] rf].
    all: settle.
    all: try coherence.
    all: apply (coherent_insert _ _ (mkProduct (seq + 1) (NewName product)
                                               (NewAdditionalInfo product)) d);
      [ now apply coherent_append
      | apply find_app_new; [assumption | now apply has_id_true]
      | assumption ].
  - (* UpdateProductById *)
    destruct (keys !! createKey id) as [data|] eqn:Hk.
    all: destruct rf as [|[t1|] rf].
    all: destruct pf as [|[u1|] pf].
    all: destruct (find (has_id id) rows) as [p|] eqn:Hfind.
    all: settle; coherence.
  - (* DeleteProductById *)
    destruct (keys !! createKey id) as [data|] eqn:Hk.
    all: destruct rf as [|[t1|] rf].
    all: destruct pf as [|[u1|] pf].
    all: destruct (find (has_id id) rows) as [p|] eqn:Hfind.
    all: settle; coherence.
  - (* DeleteAllProducts *)
    destruct rf as [|[t1|] rf].
    all: destruct pf as [|[u1|] [|[u2|] [|[u3|] [|[u4|] pf]]]].
    all: settle; coherence.
Qed.

(** ... and so does serving any list of requests, one after the other. *)
Theorem coherent_after_all (reqs : list Request) (w : World) :
  coherent w -> coherent (after_all reqs w).
Proof.
  unfold after_all. revert w.
  induction reqs as [|req reqs IH]; intros w Hc; cbn; [exact Hc|].
  apply IH. now apply coherent_after.
Qed.

(** No stale read: in a coherent state, whenever [GetProductById] hands back
    a value without a critical error, whether from the cache or from the
    store, the table holds a row under that id and the value is the
    serialization of that row. *)
Theorem GetProductById_reads_the_row
  (w w' : World) (id : Z) (v : option string) (err : option ServiceError)
  (tr : list Invocation) :
  coherent w ->
  run adapters (service.GetProductById id) w = (Returned (v, err), w', tr) ->
  (forall se, err = Some se -> CriticalError se = None) ->
  exists p,
    find (has_id id) (pg_rows (postgres w)) = Some p
    /\ (Marshal (Some p)).2 = None
    /\ default "" v = default "" (Marshal (Some p)).1.
Proof.
  unfold coherent.
  destruct w as [[keys rf] [rows seq pf]]; cbn [redis postgres redis_keys pg_rows].
  intros Hc Hrun Hcrit. revert Hrun.
  destruct (keys !! createKey id) as [data|] eqn:Hk.
  all: destruct rf as [|[t1|] [|[t2|] rf]].
  all: destruct pf as [|[u1|] pf].
  all: destruct (find (has_id id) rows) as [p|] eqn:Hfind.
  all: try destruct (Marshal (Some p)) as [d [merr|]] eqn:Hm.
  all: settle.
  all: intros [= <- <- <- <-].
  all: try (specialize (Hcrit _ eq_refl); discriminate Hcrit).
  all: try (exists p; rewrite Hm; repeat split; reflexivity).
  all: destruct (Hc _ _ Hk) as (q & d' & Hkey & Hq & Hmq & ->).
  all: apply createKey_inj in Hkey; subst id.
  all: try (rewrite Hq in Hfind;
            first [discriminate Hfind | injection Hfind as <-]).
  all: try congruence.
  all: exists q; rewrite Hmq; repeat split; first [reflexivity | assumption].
Qed.

End Coherence.

(** ** The ids of the table *)

Section Keyed.
Context `{Encoder}.
Import cache repository app.

Lemma keyed_rows (rows : list Product) (seq seq' : Z)
      (faults faults' : list (option string)) :
  seq <= seq' ->
  keyed (mkPostgres rows seq faults) -> keyed (mkPostgres rows seq' faults').
Proof.
  intros Hle [Hnd Hall]. split; [exact Hnd|].
  cbn in *. eapply Forall_impl; [exact Hall|]. cbn. intros p Hp. lia.
Qed.

Lemma keyed_fresh (db : Postgres) :
  keyed db -> find (has_id (pg_seq db + 1)) (pg_rows db) = None.
Proof.
  intros [_ Hall].
  destruct (find (has_id (pg_seq db + 1)) (pg_rows db)) as [p|] eqn:Hfind;
    [|reflexivity].
  apply find_some in Hfind as [Hin Hid].
  apply has_id_true in Hid. apply list_elem_of_In in Hin.
  rewrite Forall_forall in Hall. specialize (Hall p Hin). lia.
Qed.

Lemma map_Id_updated (name info : string) (id : Z) (rows : list Product) :
  map Id (map (updated name info id) rows) = map Id rows.
Proof.
  induction rows as [|p rows IH]; cbn; [reflexivity|].
  now rewrite Id_updated, IH.
Qed.

Lemma keyed_updated (name info : string) (id : Z) (rows : list Product)
      (seq : Z) (faults faults' : list (option string)) :
  keyed (mkPostgres rows seq faults) ->
  keyed (mkPostgres (map (updated name info id) rows) seq faults').
Proof.
  intros [Hnd Hall]. split; cbn in *.
  - now rewrite map_Id_updated.
  - apply Forall_forall. intros q Hq. apply list_elem_of_In in Hq.
    apply in_map_iff in Hq as (p & <- & Hp). apply list_elem_of_In in Hp.
    rewrite Id_updated. rewrite Forall_forall in Hall. now apply Hall.
Qed.

Lemma NoDup_map_filter {A B} (f : A -> B) (g : A -> bool) (l : list A) :
  NoDup (map f l) -> NoDup (map f (List.filter g l)).
Proof.
  induction l as [|a l IH]; cbn; [trivial|].
  intros Hnd. apply NoDup_cons in Hnd as [Hnotin Hnd].
  destruct (g a); cbn; [|auto].
  apply NoDup_cons. split; [|auto].
  intros Hin. apply Hnotin.
  apply list_elem_of_In in Hin. apply list_elem_of_In.
  apply in_map_iff in Hin as (x & <- & Hx).
  apply filter_In in Hx as [Hx _]. now apply in_map.
Qed.

Lemma keyed_filtered (g : Product -> bool) (rows : list Product)
      (seq : Z) (faults faults' : list (option string)) :
  keyed (mkPostgres rows seq faults) ->
  keyed (mkPostgres (List.filter g rows) seq faults').
Proof.
  intros [Hnd Hall]. split; cbn in *.
  - now apply NoDup_map_filter.
  - apply Forall_forall. intros q Hq. apply list_elem_of_In in Hq.
    apply filter_In in Hq as [Hq _]. apply list_elem_of_In in Hq.
    rewrite Forall_forall in Hall. now apply Hall.
Qed.

Lemma keyed_appended (rows : list Product) (name info : string)
      (seq : Z) (faults faults' : list (option string)) :
  keyed (mkPostgres rows seq faults) ->
  keyed (mkPostgres (rows ++ [mkProduct (seq + 1) name info]) (seq + 1) faults').
Proof.
  intros [Hnd Hall]. cbn in *. split; cbn.
  - rewrite map_app. cbn. apply NoDup_app. repeat split.
    + exact Hnd.
    + intros x Hx Hx'. apply list_elem_of_In in Hx.
      apply list_elem_of_In in Hx'. cbn in Hx'. destruct Hx' as [<-|[]].
      apply in_map_iff in Hx as (p & Hp & Hin). apply list_elem_of_In in Hin.
      rewrite Forall_forall in Hall. specialize (Hall p Hin). lia.
    + apply NoDup_singleton.
  - apply Forall_app. split.
    + eapply Forall_impl; [exact Hall|]. cbn. intros p Hp. lia.
    + apply Forall_cons. split; [cbn; lia | apply Forall_nil; exact I].
Qed.

Lemma keyed_emptied (seq : Z) (faults : list (option string)) :
  keyed (mkPostgres [] seq faults).
Proof. split; cbn; [apply NoDup_nil; exact I | apply Forall_nil; exact I]. Qed.

Lemma keyed_call {X : Type} (c : Call X) (w : World) :
  keyed (postgres w) -> keyed (postgres (adapters X c w).2).
Proof.
  destruct w as [r [rows seq pf]]. intros Hk.
  destruct c as [p | id | id | | id | | limit offset | product | id product
                 | id | ]; cbn [adapters].
  1-4: unfold on_cache;
    match goal with
    | |- context [let '(_, _) := ?f ?r0 in _] => destruct (f r0) as [? ?]
    end; exact Hk.
  - (* GetProduct *)
    destruct pf as [|[u|] pf]; destruct (find (has_id id) rows) eqn:Hf;
      evaluate; eapply keyed_rows; try exact Hk; lia.
  - (* GetAllProducts *)
    destruct pf as [|[u1|] [|[u2|] pf]];
      evaluate; eapply keyed_rows; try exact Hk; lia.
  - (* GetProductsPaged *)
    destruct (makeslice_ok limit) eqn:Hcap;
      destruct pf as [|[u1|] [|[u2|] pf]]; evaluate;
      repeat match goal with
        | |- context [decide ?P] => destruct (decide P); evaluate
        end;
      eapply keyed_rows; try exact Hk; lia.
  - (* StoreProduct *)
    destruct pf as [|[u|] pf];
      destruct (find (has_id (seq + 1)) rows) eqn:Hf; evaluate.
    all: first [ eapply keyed_appended; exact Hk
               | eapply keyed_rows; [|exact Hk]; lia ].
  - (* UpdateProductById *)
    destruct pf as [|[u|] pf]; destruct (find (has_id id) rows) eqn:Hf;
      evaluate.
    all: first [ eapply keyed_rows; [|exact Hk]; lia
               | eapply (keyed_updated _ _ _ _ _ _ _ Hk) ].
  - (* DeleteProductById *)
    destruct pf as [|[u|] pf]; destruct (find (has_id id) rows) eqn:Hf;
      evaluate.
    all: first [ eapply keyed_rows; [|exact Hk]; lia
               | eapply keyed_filtered; exact Hk ].
  - (* DeleteAllProducts *)
    destruct pf as [|[u1|] [|[u2|] [|[u3|] [|[u4|] pf]]]]; evaluate.
    all: first [ eapply keyed_rows; [|exact Hk]; lia
               | apply keyed_emptied ].
Qed.

Lemma keyed_preserved {A : Type} (p : Prog A) (w : World) :
  keyed (postgres w) -> keyed (postgres (run adapters p w).1.2).
Proof.
  revert w. induction p as [a | X c k IH]; intros w Hk; cbn; [exact Hk|].
  pose proof (keyed_call c w Hk) as Hc.
  destruct (adapters X c w) as [[x | reason] w1]; cbn in Hc; [|exact Hc].
  specialize (IH x w1 Hc).
  destruct (run adapters (k x) w1) as [[o w2] tr]. exact IH.
Qed.

(** Whatever is run over the adapters, and whatever the faults, the ids of
    the table stay pairwise distinct and none gets ahead of the sequence. *)
Theorem keyed_run {A : Type} (p : Prog A) (w : World) :
  keyed (postgres w) -> keyed (postgres (run adapters p w).1.2).
Proof. apply keyed_preserved. Qed.

(** Ids are not handed out twice: after any run over the adapters from a
    table whose ids are distinct and behind the sequence, a [CreateProduct]
    whose insert reaches the store returns the next value of the sequence,
    which no row of the table has, with no critical error. *)
Theorem CreateProduct_fresh_id
  {A : Type} (history : Prog A) (w0 : World) (product : NewProduct) :
  keyed (postgres w0) ->
  let w := (run adapters history w0).1.2 in
  fault_at 0 (pg_faults (postgres w)) = None ->
  exists err w' tr,
    run adapters (service.CreateProduct product) w
    = (Returned (pg_seq (postgres w) + 1, err), w', tr)
    /\ ~ In (pg_seq (postgres w) + 1) (map Id (pg_rows (postgres w)))
    /\ (forall se, err = Some se -> CriticalError se = None).
Proof.
  intros Hk w Hpg.
  pose proof (keyed_preserved history w0 Hk) as Hkw. fold w in Hkw.
  pose proof (keyed_fresh _ Hkw) as Hfresh.
  destruct (CreateProduct_returns_assigned_id w product Hpg Hfresh)
    as (err & w' & tr & Hrun & Herr).
  exists err, w', tr. repeat split; [exact Hrun | |].
  - intros Hin. apply in_map_iff in Hin as (p & Hid & Hin).
    destruct Hkw as [_ Hall]. rewrite Forall_forall in Hall.
    apply list_elem_of_In in Hin. specialize (Hall p Hin). lia.
  - intros se ->. now destruct Herr.
Qed.

End Keyed.

(** ** The Redis cache by itself *)

Section CacheFacts.
Context `{Encoder}.
Import cache.

#[local] Arguments errors_Is : simpl never.
#[local] Arguments Errorf_w : simpl never.

(** What was set is what is got: when [SetProduct] returns nil and the next
    command gets through, [GetJSONProductById] on the id of the product
    returns the bytes [json.Marshal] gave for it, and no error. *)
Theorem SetProduct_then_GetJSONProductById (p : Product) (r r1 : Redis) :
  SetProduct (Some p) r = (Returned None, r1) ->
  fault_at 0 (redis_faults r1) = None ->
  exists d,
    Marshal (Some p) = (d, None)
    /\ (GetJSONProductById (Id p) r1).1 = Returned (Some (default "" d), None).
Proof.
  destruct r as [keys rf]. unfold SetProduct.
  destruct (Marshal (Some p)) as [d [merr|]] eqn:Hm; [discriminate|].
  destruct rf as [|[t|] rf]; cbn; try discriminate.
  all: intros [= <-]; intros Hf; exists d; split; [reflexivity|].
  all: unfold GetJSONProductById, client_Get; cbn in *.
  - now rewrite lookup_insert_eq.
  - destruct rf as [|[t|] rf]; cbn in *; try discriminate;
      now rewrite lookup_insert_eq.
Qed.

(** [SetProduct] writes under the key of its product only: the entry of any
    other id is as it was, whatever [SetProduct] returns. *)
Theorem SetProduct_other_ids
  (p : Product) (r r1 : Redis) (o : outcome (option error)) (id : Z) :
  SetProduct (Some p) r = (o, r1) ->
  id <> Id p ->
  redis_keys r1 !! createKey id = redis_keys r !! createKey id.
Proof.
  destruct r as [keys rf]. unfold SetProduct.
  destruct (Marshal (Some p)) as [d [merr|]] eqn:Hm.
  - intros [= <- <-]. reflexivity.
  - destruct rf as [|[t|] rf]; cbn; intros [= <- <-] Hne; cbn;
      try reflexivity.
    all: apply lookup_insert_ne; intros Heq; apply createKey_inj in Heq;
      congruence.
Qed.

(** Once [DeleteProductById] has returned nil for an id, the key was there
    before, and, the server being reachable, a lookup and a second delete of
    that id both answer [ErrNotFound]. *)
Theorem DeleteProductById_then_not_found (id : Z) (r r1 : Redis) :
  DeleteProductById id r = (Returned None, r1) ->
  fault_at 0 (redis_faults r1) = None ->
  is_Some (redis_keys r !! createKey id)
  /\ (exists e, (GetJSONProductById id r1).1 = Returned (None, Some e)
                /\ errors_Is e (Sentinel ErrNotFound) = true)
  /\ (exists e, (DeleteProductById id r1).1 = Returned (Some e)
                /\ errors_Is e (Sentinel ErrNotFound) = true).
Proof.
  destruct r as [keys rf]. unfold DeleteProductById at 1, client_Del.
  destruct rf as [|[t|] rf]; cbn.
  all: try discriminate.
  all: destruct (keys !! createKey id) as [data|] eqn:Hk; cbn.
  all: try (rewrite decide_True by reflexivity; discriminate).
  all: rewrite decide_False by lia.
  all: intros [= <-]; cbn; intros Hf.
  all: (split; [eexists; reflexivity|]).
  all: unfold GetJSONProductById, DeleteProductById, client_Get, client_Del; cbn.
  all: try (destruct rf as [|[t|] rf]; cbn in Hf; try discriminate Hf); cbn.
  all: rewrite lookup_delete_eq; cbn.
  all: rewrite ?decide_True by reflexivity.
  all: split; eexists; (split; [reflexivity|]).
  all: apply not_found_is_not_found.
Qed.

(** Once [ClearCache] has returned nil, every lookup that reaches the server
    answers [ErrNotFound]. *)
Theorem ClearCache_then_not_found (r r1 : Redis) (id : Z) :
  ClearCache r = (Returned None, r1) ->
  fault_at 0 (redis_faults r1) = None ->
  exists e, (GetJSONProductById id r1).1 = Returned (None, Some e)
            /\ errors_Is e (Sentinel ErrNotFound) = true.
Proof.
  destruct r as [keys rf]. unfold ClearCache, client_FlushDB.
  destruct rf as [|[t|] rf]; cbn; try discriminate.
  all: intros [= <-]; cbn; intros Hf.
  all: unfold GetJSONProductById, client_Get; cbn.
  all: try (destruct rf as [|[t|] rf]; cbn in Hf; try discriminate Hf); cbn.
  all: rewrite lookup_empty.
  all: eexists; (split; [reflexivity|]); apply not_found_is_not_found.
Qed.

(** A cache method that returns an error leaves the key space as it was, and
    its error is [ErrInternalCache] or [ErrNotFound], never both;
    [ErrNotFound] comes only from a lookup or a delete of an id that has no
    entry. *)
Theorem cache_error_contract (r r1 : Redis) (e : error) :
  (forall p, SetProduct (Some p) r = (Returned (Some e), r1) ->
             redis_keys r1 = redis_keys r
             /\ errors_Is e (Sentinel ErrInternalCache) = true
             /\ errors_Is e (Sentinel ErrNotFound) = false)
  /\ (forall id v, GetJSONProductById id r = (Returned (v, Some e), r1) ->
             v = None /\ redis_keys r1 = redis_keys r
             /\ (errors_Is e (Sentinel ErrNotFound) = true
                 /\ errors_Is e (Sentinel ErrInternalCache) = false
                 /\ redis_keys r !! createKey id = None
                 \/ errors_Is e (Sentinel ErrNotFound) = false
                    /\ errors_Is e (Sentinel ErrInternalCache) = true))
  /\ (forall id, DeleteProductById id r = (Returned (Some e), r1) ->
             redis_keys r1 = redis_keys r
             /\ (errors_Is e (Sentinel ErrNotFound) = true
                 /\ errors_Is e (Sentinel ErrInternalCache) = false
                 /\ redis_keys r !! createKey id = None
                 \/ errors_Is e (Sentinel ErrNotFound) = false
                    /\ errors_Is e (Sentinel ErrInternalCache) = true))
  /\ (ClearCache r = (Returned (Some e), r1) ->
             redis_keys r1 = redis_keys r
             /\ errors_Is e (Sentinel ErrInternalCache) = true
             /\ errors_Is e (Sentinel ErrNotFound) = false).
Proof.
  destruct r as [keys rf]. repeat split.
  all: match goal with Hrun : _ = (Returned _, _) |- _ => revert Hrun end.
  all: unfold SetProduct, GetJSONProductById, DeleteProductById, ClearCache,
         client_Set, client_Get, client_Del, client_FlushDB.
  all: try destruct (Marshal (Some p)) as [d [merr|]] eqn:Hm.
  all: destruct rf as [|[t|] rf]; cbn.
  all: try destruct (keys !! createKey id) as [data|] eqn:Hk; cbn.
  all: rewrite ?decide_True by reflexivity; rewrite ?decide_False by lia.
  all: try discriminate.
  all: intros Heq; simplify_eq; cbn.
  all: rewrite ?errors_Is_wrapped_sentinel; cbn.
  all: try reflexivity.
  all: try (rewrite delete_id by assumption; reflexivity).
  all: first [ left; repeat split; first [reflexivity | assumption]
             | right; split; reflexivity ].
Qed.

End CacheFacts.

(** ** The Postgres repository by itself *)

Section RepositoryFacts.
Import repository.

#[local] Arguments errors_Is : simpl never.
#[local] Arguments Errorf_w : simpl never.

Lemma Product_eta (p : Product) :
  {| Id := Id p; Name := Name p; AdditionalInfo := AdditionalInfo p |} = p.
Proof. now destruct p. Qed.

(** What was stored is what is got: when [StoreProduct] returns an id and no
    error and the next command gets through, [GetProduct] on that id returns
    the product made of the id and of the texts submitted. *)
Theorem StoreProduct_then_GetProduct
  (product : NewProduct) (db db1 : Postgres) (id : Z) :
  StoreProduct product db = (Returned (id, None), db1) ->
  fault_at 0 (pg_faults db1) = None ->
  (GetProduct id db1).1
  = Returned (Some (mkProduct id (NewName product) (NewAdditionalInfo product)),
              None).
Proof.
  destruct db as [rows seq pf]. unfold StoreProduct, insert_returning_id.
  destruct pf as [|[u|] pf]; cbn; try discriminate.
  all: destruct (find (has_id (seq + 1)) rows) as [q|] eqn:Hfind; cbn;
    try discriminate.
  all: intros Heq; simplify_eq; cbn; intros Hf.
  all: unfold GetProduct, select_by_id; cbn.
  all: try (destruct pf as [|[u|] pf]; cbn in Hf; try discriminate Hf); cbn.
  all: rewrite (find_app_new _ _ (mkProduct (seq + 1) (NewName product)
                                            (NewAdditionalInfo product)));
    [reflexivity | assumption | now apply has_id_true].
Qed.

(** [UpdateProductById], when it returns a product and no error: the product
    returned is the row the table held under the id, as it was before; the
    table has as many rows as before and the rows of the other ids are
    untouched; and, the next command getting through, [GetProduct] on the id
    returns the row with the texts submitted. *)
Theorem UpdateProductById_then_GetProduct
  (id : Z) (product : NewProduct) (db db1 : Postgres) (old : option Product) :
  UpdateProductById id product db = (Returned (old, None), db1) ->
  old = find (has_id id) (pg_rows db)
  /\ is_Some old
  /\ length (pg_rows db1) = length (pg_rows db)
  /\ (forall id', id' <> id ->
                  find (has_id id') (pg_rows db1) = find (has_id id') (pg_rows db))
  /\ (fault_at 0 (pg_faults db1) = None ->
      (GetProduct id db1).1
      = Returned (Some (mkProduct id (NewName product)
                                  (NewAdditionalInfo product)), None)).
Proof.
  destruct db as [rows seq pf]. unfold UpdateProductById, update_returning_old.
  destruct pf as [|[u|] pf]; cbn; try discriminate.
  all: destruct (find (has_id id) rows) as [p|] eqn:Hfind; cbn;
    try discriminate.
  all: intros Heq; simplify_eq; cbn.
  all: pose proof (find_has_id _ _ _ Hfind) as Hid.
  all: repeat split.
  all: try (rewrite <- Hid; now rewrite Product_eta).
  all: try (eexists; reflexivity).
  all: try apply length_map.
  all: try (intros id' Hne;
            apply (find_updated_other (NewName product)
                                      (NewAdditionalInfo product) _ _ rows Hne)).
  all: intros Hf; unfold GetProduct, select_by_id; cbn.
  all: try (destruct pf as [|[u|] pf]; cbn in Hf; try discriminate Hf); cbn.
  all: pose proof (find_updated_same (NewName product) (NewAdditionalInfo product)
                                     _ _ _ Hfind) as Hnew.
  all: unfold updated in Hnew; rewrite Hnew, Hid; reflexivity.
Qed.

(** [DeleteProductById], when it returns a product and no error: the
    product returned is the row the table held under the id; the rows of
    the other ids are untouched; and, the next command getting through,
    [GetProduct] on the id answers [ErrNotFound] and no product. *)
Theorem DeleteProductById_then_GetProduct
  (id : Z) (db db1 : Postgres) (deleted : option Product) :
  DeleteProductById id db = (Returned (deleted, None), db1) ->
  deleted = find (has_id id) (pg_rows db)
  /\ is_Some deleted
  /\ (forall id', id' <> id ->
                  find (has_id id') (pg_rows db1) = find (has_id id') (pg_rows db))
  /\ (fault_at 0 (pg_faults db1) = None ->
      exists e, (GetProduct id db1).1 = Returned (None, Some e)
                /\ errors_Is e (Sentinel ErrNotFound) = true).
Proof.
  destruct db as [rows seq pf]. unfold DeleteProductById, delete_returning.
  destruct pf as [|[u|] pf]; cbn; try discriminate.
  all: destruct (find (has_id id) rows) as [p|] eqn:Hfind; cbn;
    try discriminate.
  all: intros Heq; simplify_eq; cbn.
  all: repeat split.
  all: try (eexists; reflexivity).
  all: try (intros id' Hne; now apply find_filter_other).
  all: intros Hf; unfold GetProduct, select_by_id; cbn.
  all: try (destruct pf as [|[u|] pf]; cbn in Hf; try discriminate Hf); cbn.
  all: rewrite find_filter_same; cbn.
  all: eexists; (split; [reflexivity|]); apply not_found_is_not_found.
Qed.

(** A repository method that returns an error returns no value with it (nil,
    or 0) and leaves the rows of the table as they were; its
    error is [ErrInternalDb] or [ErrNotFound], never both, and [ErrNotFound]
    comes only from a method on one id when no row has that id. *)
Theorem repository_error_contract (db db1 : Postgres) (e : error) :
  (forall id v, GetProduct id db = (Returned (v, Some e), db1) ->
      v = None /\ pg_rows db1 = pg_rows db
      /\ (errors_Is e (Sentinel ErrNotFound) = true
          /\ errors_Is e (Sentinel ErrInternalDb) = false
          /\ find (has_id id) (pg_rows db) = None
          \/ errors_Is e (Sentinel ErrNotFound) = false
             /\ errors_Is e (Sentinel ErrInternalDb) = true))
  /\ (forall id product v,
      UpdateProductById id product db = (Returned (v, Some e), db1) ->
      v = None /\ pg_rows db1 = pg_rows db
      /\ (errors_Is e (Sentinel ErrNotFound) = true
          /\ errors_Is e (Sentinel ErrInternalDb) = false
          /\ find (has_id id) (pg_rows db) = None
          \/ errors_Is e (Sentinel ErrNotFound) = false
             /\ errors_Is e (Sentinel ErrInternalDb) = true))
  /\ (forall id v, DeleteProductById id db = (Returned (v, Some e), db1) ->
      v = None /\ pg_rows db1 = pg_rows db
      /\ (errors_Is e (Sentinel ErrNotFound) = true
          /\ errors_Is e (Sentinel ErrInternalDb) = false
          /\ find (has_id id) (pg_rows db) = None
          \/ errors_Is e (Sentinel ErrNotFound) = false
             /\ errors_Is e (Sentinel ErrInternalDb) = true))
  /\ (forall product v, StoreProduct product db = (Returned (v, Some e), db1) ->
      v = 0 /\ pg_rows db1 = pg_rows db
      /\ errors_Is e (Sentinel ErrNotFound) = false
      /\ errors_Is e (Sentinel ErrInternalDb) = true)
  /\ (forall v, GetAllProducts db = (Returned (v, Some e), db1) ->
      v = None /\ pg_rows db1 = pg_rows db
      /\ errors_Is e (Sentinel ErrNotFound) = false
      /\ errors_Is e (Sentinel ErrInternalDb) = true)
  /\ (forall limit offset v,
      GetProductsPaged limit offset db = (Returned (v, Some e), db1) ->
      v = None /\ pg_rows db1 = pg_rows db
      /\ errors_Is e (Sentinel ErrNotFound) = false
      /\ errors_Is e (Sentinel ErrInternalDb) = true)
  /\ (forall v, DeleteAllProducts db = (Returned (v, Some e), db1) ->
      v = 0 /\ pg_rows db1 = pg_rows db
      /\ errors_Is e (Sentinel ErrNotFound) = false
      /\ errors_Is e (Sentinel ErrInternalDb) = true).
Proof.
  destruct db as [rows seq pf].
  repeat match goal with |- _ /\ _ => split end.
  all: intros.
  all: match goal with Hrun : _ = (Returned _, _) |- _ => revert Hrun end.
  all: unfold GetProduct, UpdateProductById, DeleteProductById, StoreProduct,
         GetAllProducts, GetProductsPaged, DeleteAllProducts,
         select_by_id, update_returning_old, delete_returning,
         insert_returning_id, select_all, select_limit_offset, rows_Err,
         Begin, tx_count, tx_truncate, tx_Commit, tx_Rollback, internal.
  all: try (destruct (makeslice_ok limit); cbn; [|discriminate]).
  all: destruct pf as [|[u1|] [|[u2|] [|[u3|] [|[u4|] pf]]]]; cbn.
  all: try destruct (find (has_id id) rows) as [p|] eqn:Hfind; cbn.
  all: try destruct (find (has_id (seq + 1)) rows) as [p|] eqn:Hfind; cbn.
  all: repeat match goal with
         | |- context [decide ?P] => destruct (decide P); cbn
         end.
  all: try discriminate.
  all: intros Heq; simplify_eq; cbn.
  all: rewrite ?errors_Is_wrapped_sentinel; cbn.
  all: repeat match goal with |- _ /\ _ => split end.
  all: try reflexivity.
  all: first [ left; repeat split; first [reflexivity | assumption]
             | right; split; reflexivity ].
Qed.




End RepositoryFacts.

(** ** More on the service over any pair of backends *)

Section ServiceFacts.
Context `{Encoder} {W : Type} (b : Backends W).

(** When the cache lookup fails and the store fails as well,
    [GetProductById] returns no value, whatever the store handed back with
    its error; the error of the store is the critical error, the error of
    the cache the only non-critical one, and the cache is not written to. *)
Theorem GetProductById_store_failure
  (id : Z) (w w1 w2 : W) (cacheRes : option string) (cacheErr dbErr : error)
  (dbRes : option Product) :
  b _ (Cache_GetJSONProductById id) w = (Returned (cacheRes, Some cacheErr), w1) ->
  b _ (Db_GetProduct id) w1 = (Returned (dbRes, Some dbErr), w2) ->
  run b (service.GetProductById id) w
  = (Returned (None, Some (NewServiceError (Some dbErr) [cacheErr])), w2,
     [Invoked (Cache_GetJSONProductById id) (Returned (cacheRes, Some cacheErr));
      Invoked (Db_GetProduct id) (Returned (dbRes, Some dbErr))]).
Proof. intros Hget Hdb. cbn. rewrite Hget. cbn. rewrite Hdb. reflexivity. Qed.

(** The rest of the outcomes of [UpdateProductById] and
    [DeleteProductById]: after an invalidation that returned nil, a success
    of the store is returned with a nil error and a failure of the store is
    the critical error, with no non-critical error; after an invalidation
    that answered [ErrNotFound], a failure of the store is the critical
    error and the [ErrNotFound] of the cache is kept as non-critical. *)
Theorem invalidated_then_store (id : Z) (product : NewProduct) (w w1 w2 : W) :
  (forall v dbErr,
      b _ (Cache_DeleteProductById id) w = (Returned None, w1) ->
      b _ (Db_UpdateProductById id product) w1 = (Returned (v, dbErr), w2) ->
      (run b (service.UpdateProductById id product) w).1
      = (Returned match dbErr with
                  | None => (v, None)
                  | Some e => (None, Some (NewServiceError (Some e) []))
                  end, w2))
  /\ (forall v dbErr,
      b _ (Cache_DeleteProductById id) w = (Returned None, w1) ->
      b _ (Db_DeleteProductById id) w1 = (Returned (v, dbErr), w2) ->
      (run b (service.DeleteProductById id) w).1
      = (Returned match dbErr with
                  | None => (v, None)
                  | Some e => (None, Some (NewServiceError (Some e) []))
                  end, w2))
  /\ (forall cacheErr v dbErr,
      b _ (Cache_DeleteProductById id) w = (Returned (Some cacheErr), w1) ->
      errors_Is cacheErr (Sentinel ErrNotFound) = true ->
      b _ (Db_UpdateProductById id product) w1 = (Returned (v, Some dbErr), w2) ->
      (run b (service.UpdateProductById id product) w).1
      = (Returned (None, Some (NewServiceError (Some dbErr) [cacheErr])), w2))
  /\ (forall cacheErr v dbErr,
      b _ (Cache_DeleteProductById id) w = (Returned (Some cacheErr), w1) ->
      errors_Is cacheErr (Sentinel ErrNotFound) = true ->
      b _ (Db_DeleteProductById id) w1 = (Returned (v, Some dbErr), w2) ->
      (run b (service.DeleteProductById id) w).1
      = (Returned (None, Some (NewServiceError (Some dbErr) [cacheErr])), w2)).
Proof.
  repeat split.
  - intros v dbErr Hdel Hdb. cbn. rewrite Hdel. cbn. rewrite Hdb.
    now destruct dbErr.
  - intros v dbErr Hdel Hdb. cbn. rewrite Hdel. cbn. rewrite Hdb.
    now destruct dbErr.
  - intros cacheErr v dbErr Hdel Hnf Hdb. cbn. rewrite Hdel, Hnf. cbn.
    now rewrite Hdb.
  - intros cacheErr v dbErr Hdel Hnf Hdb. cbn. rewrite Hdel, Hnf. cbn.
    now rewrite Hdb.
Qed.

(** No retry and no detour: whatever the backends answer, serving a request
    makes at most three calls, of which at most one goes to the store; the
    two listings call nothing but the store, so the cache is left alone. *)
Theorem few_calls (req : Request) (w : W) :
  let tr := calls b req w in
  (length tr <= 3)%nat
  /\ (length (store_calls tr) <= 1)%nat
  /\ match req with
     | ReqGetAllProducts | ReqGetProductsPaged _ _ => store_calls tr = tr
     | _ => True
     end.
Proof.
  destruct req; cbn.
  all: repeat match goal with
         | |- context [match b ?X ?c ?w with _ => _ end] =>
             destruct (b X c w) as [[?|?] ?]; cbn
         | |- context [run b (match ?e with _ => _ end) _] =>
             destruct e; cbn
         | |- context [run b (if ?e then _ else _) _] =>
             destruct e; cbn
         end.
  all: repeat split; vm_compute; try reflexivity; try lia.
  all: repeat constructor.
Qed.

End ServiceFacts.

(** ** Reads after writes, over the adapters *)

Ltac settled :=
  evaluate;
  repeat (first [ rewrite not_found_is_not_found
                | rewrite internal_cache_is_not_not_found
                | rewrite decide_False by lia
                | rewrite decide_True by lia ];
          evaluate).

Section ReadsAfterWrites.
Context `{Encoder}.
Import cache repository app.

#[local] Arguments errors_Is : simpl never.
#[local] Arguments Errorf_w : simpl never.

(** Read your update: with both servers reachable, [UpdateProductById] on an
    id the table holds returns the row as it was, with no critical error,
    whether or not the cache held the product; and [GetProductById] right
    after returns the serialization of the row with the texts submitted,
    never what the cache held before, and leaves it in the cache. *)
Theorem UpdateProductById_then_GetProductById
  (w : World) (id : Z) (product : NewProduct) (old : Product) (js : string) :
  healthy w ->
  find (has_id id) (pg_rows (postgres w)) = Some old ->
  Marshal (Some (mkProduct id (NewName product) (NewAdditionalInfo product)))
  = (Some js, None) ->
  exists e1 w1 tr1 e2 w2 tr2,
    run adapters (service.UpdateProductById id product) w
    = (Returned (Some old, e1), w1, tr1)
    /\ (forall se, e1 = Some se -> CriticalError se = None)
    /\ run adapters (service.GetProductById id) w1
       = (Returned (Some js, e2), w2, tr2)
    /\ (forall se, e2 = Some se -> CriticalError se = None)
    /\ redis_keys (redis w2) !! createKey id = Some js.
Proof.
  intros [Hrf Hpf] Hfind Hm.
  destruct w as [[keys rf] [rows seq pf]]; cbn in Hrf, Hpf, Hfind. subst rf pf.
  pose proof (find_has_id _ _ _ Hfind) as Hid.
  pose proof (find_updated_same (NewName product) (NewAdditionalInfo product)
                                _ _ _ Hfind) as Hnew.
  unfold updated in Hnew. rewrite Hid in Hnew.
  pose proof (lookup_delete_eq keys (createKey id)) as Hgone.
  assert ({| Id := id; Name := Name old; AdditionalInfo := AdditionalInfo old |}
          = old) as Heta by (rewrite <- Hid; now destruct old).
  destruct (keys !! createKey id) as [data|] eqn:Hk.
  all: settled.
  all: do 6 eexists.
  all: split; [reflexivity|].
  all: split; [intros se [= <-]; reflexivity || intros se Hse; discriminate Hse|].
  all: settled.
  all: split; [reflexivity|].
  all: split; [intros se [= <-]; reflexivity|].
  all: cbn; apply lookup_insert_eq.
Qed.

(** Deleted is gone: with both servers reachable, [DeleteProductById] on an
    id the table holds returns the row, with no critical error, whether or
    not the cache held the product; and [GetProductById] right after
    returns no value and [ErrNotFound] as the critical error. *)
Theorem DeleteProductById_then_GetProductById
  (w : World) (id : Z) (old : Product) :
  healthy w ->
  find (has_id id) (pg_rows (postgres w)) = Some old ->
  exists e1 w1 tr1 se w2 tr2 critical,
    run adapters (service.DeleteProductById id) w
    = (Returned (Some old, e1), w1, tr1)
    /\ (forall se1, e1 = Some se1 -> CriticalError se1 = None)
    /\ run adapters (service.GetProductById id) w1
       = (Returned (None, Some se), w2, tr2)
    /\ CriticalError se = Some critical
    /\ errors_Is critical (Sentinel ErrNotFound) = true.
Proof.
  intros [Hrf Hpf] Hfind.
  destruct w as [[keys rf] [rows seq pf]]; cbn in Hrf, Hpf, Hfind. subst rf pf.
  pose proof (find_filter_same id rows) as Hnone.
  pose proof (lookup_delete_eq keys (createKey id)) as Hgone.
  destruct (keys !! createKey id) as [data|] eqn:Hk.
  all: settled.
  all: do 7 eexists.
  all: split; [reflexivity|].
  all: split; [intros se1 [= <-]; reflexivity || intros se1 Hse; discriminate Hse|].
  all: settled.
  all: split; [reflexivity|].
  all: split; [reflexivity|].
  all: first [reflexivity | apply not_found_is_not_found].
Qed.

(** After the bulk delete: with both servers reachable, [DeleteAllProducts]
    returns the number of rows without error, and right after
    [GetAllProducts] returns an empty list that is not nil and
    [GetProductById], on any id, no value and [ErrNotFound] as the critical
    error. *)
Theorem DeleteAllProducts_then_nothing_left (w : World) (id : Z) :
  healthy w ->
  exists w1 tr1,
    run adapters service.DeleteAllProducts w
    = (Returned (Z.of_nat (length (pg_rows (postgres w))), None), w1, tr1)
    /\ (run adapters service.GetAllProducts w1).1.1 = Returned (Some [], None)
    /\ exists se critical,
        (run adapters (service.GetProductById id) w1).1.1
        = Returned (None, Some se)
        /\ CriticalError se = Some critical
        /\ errors_Is critical (Sentinel ErrNotFound) = true.
Proof.
  intros [Hrf Hpf].
  destruct w as [[keys rf] [rows seq pf]]; cbn in Hrf, Hpf. subst rf pf.
  pose proof (lookup_empty (A := string) (M := gmap string) (createKey id))
    as Hempty.
  settled.
  do 2 eexists. split; [reflexivity|]. split; [reflexivity|].
  settled.
  do 2 eexists. split; [reflexivity|]. split; [reflexivity|].
  first [reflexivity | apply not_found_is_not_found].
Qed.

End ReadsAfterWrites.

(** ** Texts and the container of errors *)

Lemma lines_app (l1 l2 : list error) : lines (l1 ++ l2) = lines l1 +:+ lines l2.
Proof.
  induction l1 as [|e l1 IH]; [reflexivity|].
  change (Error e +:+ nl +:+ lines (l1 ++ l2)
          = (Error e +:+ nl +:+ lines l1) +:+ lines l2).
  now rewrite IH, !append_assoc.
Qed.

(** The text of an aggregated result does not tell its critical error from a
    last non-critical one: moving the critical error to the end of the
    non-critical errors gives the same text.  (The service tests compare
    results through their texts.) *)
Theorem ServiceError_Error_blind_to_critical (critical : error) (errs : list error) :
  ServiceError_Error (NewServiceError (Some critical) errs)
  = ServiceError_Error (NewServiceError None (errs ++ [critical])).
Proof.
  unfold ServiceError_Error. cbn [CriticalError NonCriticalErrors NewServiceError].
  rewrite !written_lines, lines_app. unfold WriteString.
  change (lines [critical]) with (Error critical +:+ nl +:+ "").
  now rewrite !append_assoc, append_empty_r.
Qed.

Lemma Add_app (c es : list error) : routing.Add c es = c ++ es.
Proof.
  unfold routing.Add. revert c.
  induction es as [|e es IH]; intros c; cbn.
  - now rewrite app_nil_r.
  - rewrite IH. now rewrite <- app_assoc.
Qed.

Lemma storeServiceErrToCtx_app (c : routing.ErrorContainer) (e : ServiceError) :
  routing.storeServiceErrToCtx c e
  = c ++ option_list (CriticalError e) ++ NonCriticalErrors e.
Proof.
  unfold routing.storeServiceErrToCtx.
  destruct (CriticalError e) as [critical|], (NonCriticalErrors e) as [|n ns];
    cbn [service.not_nil option_list]; rewrite ?Add_app.
  all: now rewrite <- ?app_assoc, ?app_nil_r.
Qed.

(** [storeServiceErrToCtx] drops nothing: the container keeps what it held,
    then comes the critical error if there is one, then the non-critical
    errors in their order. *)
Theorem storeServiceErrToCtx_keeps_all (c : routing.ErrorContainer) (e : ServiceError) :
  routing.storeServiceErrToCtx c e
  = c ++ option_list (CriticalError e) ++ NonCriticalErrors e.
Proof. apply storeServiceErrToCtx_app. Qed.

(** ** strconv.ParseInt and the validation of a parameter *)

Section Parsing.
Import routing.

Lemma parse_digits_range (s : string) (n v : Z) :
  0 <= n < 2 ^ 64 -> parse_digits s n = inl v -> n <= v < 2 ^ 64.
Proof.
  revert n. induction s as [|c s IH]; intros n Hn; cbn.
  - intros [= <-]. lia.
  - destruct (digit c) as [d|] eqn:Hd; [|discriminate].
    assert (0 <= d <= 9) as Hdr.
    { unfold digit in Hd. case_bool_decide; [|discriminate].
      injection Hd as <-. lia. }
    case_bool_decide; [discriminate|].
    intros Hp. apply IH in Hp; lia.
Qed.

Lemma ParseInt_int64 (s : string) (v : Z) :
  ParseInt s = inl v -> - 2 ^ 63 <= v < 2 ^ 63.
Proof.
  unfold ParseInt, ParseUint. destruct s as [|c s]; [discriminate|].
  set (neg := bool_decide (c = "-"%char)).
  set (s1 := if bool_decide (c = "+"%char) || neg then s else String c s).
  destruct s1 as [|c1 s1]; [discriminate|].
  destruct (parse_digits (String c1 s1) 0) as [un|[|]] eqn:Hp; try discriminate.
  apply parse_digits_range in Hp; [|lia].
  destruct neg; cbn [negb andb].
  - case_bool_decide; [discriminate|]. intros [= <-]. lia.
  - case_bool_decide; [discriminate|]. intros [= <-]. lia.
Qed.

(** A value that [ParseInt] accepts fits an [int64]. *)
Theorem ParseInt_range (s : string) (v : Z) :
  ParseInt s = inl v -> - 2 ^ 63 <= v < 2 ^ 63.
Proof. apply ParseInt_int64. Qed.

Lemma digit_pretty_N_char (d : N) :
  (d < 10)%N -> digit (pretty_N_char d) = Some (Z.of_N d).
Proof.
  intros Hd.
  assert (d = 0 \/ d = 1 \/ d = 2 \/ d = 3 \/ d = 4 \/ d = 5 \/ d = 6
          \/ d = 7 \/ d = 8 \/ d = 9)%N as Hcases by lia.
  repeat (destruct Hcases as [-> | Hcases]; [reflexivity|]).
  now subst d.
Qed.

Lemma parse_digits_pretty_N_go (x : N) (s : string) :
  Z.of_N x < 2 ^ 64 ->
  parse_digits (pretty_N_go x s) 0 = parse_digits s (Z.of_N x).
Proof.
  revert s. induction (N.lt_wf_0 x) as [x _ IH]; intros s Hx.
  assert (x = 0 \/ 0 < x)%N as [-> | Hpos] by lia.
  - now rewrite pretty_N_go_0.
  - rewrite pretty_N_go_step by exact Hpos.
    assert (Z.of_N x = Z.of_N (x `div` 10) * 10 + Z.of_N (x `mod` 10)) as Hsplit.
    { rewrite N2Z.inj_div, N2Z.inj_mod. change (Z.of_N 10) with 10.
      assert (10 <> 0) as Hten by discriminate.
      pose proof (Z.div_mod (Z.of_N x) 10 Hten) as Hdm.
      rewrite Z.mul_comm. exact Hdm. }
    assert (0 <= Z.of_N (x `mod` 10) < 10) as Hd.
    { rewrite N2Z.inj_mod. now apply Z.mod_pos_bound. }
    rewrite IH.
    + cbn [parse_digits]. rewrite digit_pretty_N_char by (apply N.mod_lt; discriminate).
      rewrite <- Hsplit. now rewrite bool_decide_eq_false_2 by lia.
    + apply N.div_lt; lia.
    + lia.
Qed.

Lemma pretty_N_go_head (x : N) (s : string) :
  (0 < x)%N ->
  exists c s', pretty_N_go x s = String c s' /\ is_Some (digit c).
Proof.
  revert s. induction (N.lt_wf_0 x) as [x _ IH]; intros s Hpos.
  rewrite pretty_N_go_step by exact Hpos.
  destruct (N.eq_0_gt_0_cases (x `div` 10)) as [-> | Hq].
  - rewrite pretty_N_go_0. do 2 eexists. split; [reflexivity|].
    rewrite digit_pretty_N_char by (apply N.mod_lt; discriminate). eexists; reflexivity.
  - apply IH; [apply N.div_lt; lia | exact Hq].
Qed.

Lemma digit_no_sign (c : ascii) :
  is_Some (digit c) ->
  bool_decide (c = "-"%char) = false /\ bool_decide (c = "+"%char) = false.
Proof.
  intros [d Hd].
  split; apply bool_decide_eq_false; intros ->; vm_compute in Hd; discriminate.
Qed.

(** Round trip with the decimal form: for every [int64] value, [ParseInt]
    of its decimal text (what the [%d] verb prints) is that value. *)
Theorem ParseInt_pretty (z : Z) :
  - 2 ^ 63 <= z < 2 ^ 63 -> ParseInt (pretty z) = inl z.
Proof.
  intros Hz. destruct z as [|p|p].
  - reflexivity.
  - unfold pretty, pretty_Z, pretty, pretty_positive, pretty, pretty_N.
    rewrite decide_False by discriminate.
    destruct (pretty_N_go_head (N.pos p) "" ltac:(lia)) as (c & s' & Hs & Hc).
    pose proof (parse_digits_pretty_N_go (N.pos p) "" ltac:(cbn; lia)) as Hp.
    rewrite Hs in *. destruct (digit_no_sign c Hc) as [Hm Hpl].
    unfold ParseInt, ParseUint. rewrite Hm, Hpl. cbn [orb negb andb].
    rewrite Hp. cbn [parse_digits].
    change (Z.of_N (N.pos p)) with (Z.pos p).
    now rewrite bool_decide_eq_false_2 by lia.
  - unfold pretty, pretty_Z, pretty, pretty_positive, pretty, pretty_N.
    rewrite decide_False by discriminate.
    destruct (pretty_N_go_head (N.pos p) "" ltac:(lia)) as (c & s' & Hs & Hc).
    pose proof (parse_digits_pretty_N_go (N.pos p) "" ltac:(cbn; lia)) as Hp.
    rewrite Hs in *.
    change ("-" +:+ String c s') with (String "-"%char (String c s')).
    unfold ParseInt, ParseUint.
    rewrite (bool_decide_eq_true_2 ("-"%char = "-"%char)) by reflexivity.
    rewrite orb_true_r.
    rewrite Hp. cbn [parse_digits negb andb].
    change (Z.of_N (N.pos p)) with (Z.pos p).
    now rewrite bool_decide_eq_false_2 by lia.
Qed.

Lemma parseAndValidate_cases
  (s : string) (lb : Z) (name : string) (c : ErrorContainer) :
  match parseAndValidate s lb name c with
  | inl value =>
      ParseInt s = inl value /\ lb <= value /\ - 2 ^ 63 <= value < 2 ^ 63
  | inr (response, c') =>
      response = mkResponse StatusBadRequest (JsonError ("Invalid " +:+ name))
      /\ (exists err, c' = c ++ [err])
      /\ (forall value, ParseInt s = inl value -> value < lb)
  end.
Proof.
  unfold parseAndValidate.
  destruct (ParseInt s) as [value|parseErr] eqn:Hparse.
  - case_bool_decide.
    + split; [reflexivity|]. split; [rewrite Add_app; eexists; reflexivity|].
      intros v [= <-]. assumption.
    + split; [reflexivity|]. split; [lia|]. now apply ParseInt_int64 in Hparse.
  - split; [reflexivity|]. split; [rewrite Add_app; eexists; reflexivity|].
    intros v Hv. discriminate Hv.
Qed.

(** [parseAndValidate]: a value it lets through is the parsed parameter, is
    not below the bound asked for and fits an [int64]; when it rejects, the
    response is 400 with the text [Invalid] and the name of the parameter,
    and exactly one error is added to the container. *)
Theorem parseAndValidate_outcome
  (s : string) (lb : Z) (name : string) (c : ErrorContainer) :
  match parseAndValidate s lb name c with
  | inl value =>
      ParseInt s = inl value /\ lb <= value /\ - 2 ^ 63 <= value < 2 ^ 63
  | inr (response, c') =>
      response = mkResponse StatusBadRequest (JsonError ("Invalid " +:+ name))
      /\ (exists err, c' = c ++ [err])
      /\ (forall value, ParseInt s = inl value -> value < lb)
  end.
Proof. apply parseAndValidate_cases. Qed.

End Parsing.

(** ** The handlers over any pair of backends *)

Section HandlerFacts.
Context `{Encoder} {W : Type} (b : Backends W).
Import routing handlers.

(** A request for the products that gives only one of [offset] and [limit],
    or neither, is served as the full listing: the parameter given is not
    even validated, and the only call made is [GetAllProducts] of the
    store. *)
Theorem GetProducts_partial_parameters
  (offset limit : string) (c : ErrorContainer) (w : W) :
  offset = "" \/ limit = "" ->
  GetProducts offset limit c = GetProducts "" "" c
  /\ exists r, (run b (GetProducts offset limit c) w).2
               = [Invoked Db_GetAllProducts r].
Proof.
  intros Hpartial.
  assert (GetProducts offset limit c = GetProducts "" "" c) as Heq.
  { unfold GetProducts.
    destruct Hpartial as [-> | ->]; [reflexivity|].
    now rewrite andb_false_r. }
  split; [exact Heq|]. rewrite Heq.
  change (GetProducts "" "" c)
    with (bind service.GetAllProducts
               (fun r => Ret (respond_listing c r))).
  cbn.
  destruct (b _ Db_GetAllProducts w) as [[[products [err|]]|reason] w1];
    eexists; reflexivity.
Qed.

(** A path whose id does not parse as an [int64], or parses below zero, is
    answered 400 [Invalid product id] by the three handlers of one product;
    one error goes to the container and no backend is called. *)
Theorem invalid_id_rejected
  (path : string) (d : Decoded) (c : ErrorContainer) (w : W) :
  (forall id, ParseInt (TrimPrefix path "/product/") = inl id -> id < 0) ->
  exists err,
    let rejected :=
      (Returned (mkReply StatusBadRequest (EncodedError "Invalid product id"),
                 c ++ [err]), w, @nil Invocation) in
    run b (GetProductById path c) w = rejected
    /\ run b (UpdateProduct path d c) w = rejected
    /\ run b (DeleteProduct path c) w = rejected.
Proof.
  intros Hbad.
  pose proof (parseAndValidate_cases (TrimPrefix path "/product/") 0
                                       "product id" c) as Hout.
  unfold GetProductById, UpdateProduct, DeleteProduct.
  destruct (parseAndValidate (TrimPrefix path "/product/") 0 "product id" c)
    as [id | [response c']].
  - destruct Hout as (Hparse & Hlb & _). specialize (Hbad _ Hparse). lia.
  - destruct Hout as (-> & [err ->] & _). exists err. cbn.
    repeat split; reflexivity.
Qed.

(** A payload that did not decode, or that has an empty name or an empty
    additional info, is answered 400 [Invalid request body] by
    [CreateProduct] and, the id of the path being valid, by
    [UpdateProduct]; one error goes to the container and no backend is
    called. *)
Theorem invalid_payload_rejected
  (path : string) (id : Z) (d : Decoded) (c : ErrorContainer) (w : W) :
  is_Some d.2 \/ NewName d.1 = "" \/ NewAdditionalInfo d.1 = "" ->
  ParseInt (TrimPrefix path "/product/") = inl id -> 0 <= id ->
  exists err,
    let rejected :=
      (Returned (mkReply StatusBadRequest (EncodedError "Invalid request body"),
                 c ++ [err]), w, @nil Invocation) in
    run b (CreateProduct d c) w = rejected
    /\ run b (UpdateProduct path d c) w = rejected.
Proof.
  intros Hbad Hparse Hid.
  assert (is_Some (payload_error d)) as [err Herr].
  { unfold payload_error. destruct d as [req [decodeErr|]]; cbn in *.
    - eexists; reflexivity.
    - destruct Hbad as [[e He] | [Hn | Hi]]; [discriminate He| |].
      + rewrite (bool_decide_eq_true_2 _ Hn). eexists; reflexivity.
      + rewrite (bool_decide_eq_true_2 _ Hi), orb_true_r. eexists; reflexivity. }
  exists err.
  unfold CreateProduct, UpdateProduct, parseAndValidate.
  rewrite Hparse, Herr, Add_app.
  rewrite bool_decide_eq_false_2 by lia. cbn.
  split; reflexivity.
Qed.

Ltac reply Hrun :=
  unfold mbind, Prog_bind;
  rewrite run_bind, Hrun;
  cbn [run];
  match goal with
  | |- context [critical_of ?err] =>
      destruct err as [[[critical|] errs]|];
      cbn [critical_of reported CriticalError NonCriticalErrors option_list]
  end;
  rewrite ?storeServiceErrToCtx_app;
  cbn [CriticalError NonCriticalErrors option_list];
  unfold failure_reply;
  repeat match goal with
    | |- context [errors_Is ?e ?t] => destruct (errors_Is e t)
    end;
  cbn [run]; rewrite ?app_nil_r; reflexivity.

(** What a handler answers once the request is valid and the service has
    returned: the same calls and the same final state as the service, no
    more; the success status with the value of the service unless the
    result carries a critical error, and then 404 for [ErrNotFound] on the
    handlers of one product and 500 otherwise; every error of the result in
    the container, the critical one first.  Non-critical errors never
    change the status. *)
Theorem handlers_reply
  (path : string) (id : Z) (d : Decoded) (c : ErrorContainer) (w w1 : W)
  (tr : list Invocation) (err : option ServiceError) :
  ParseInt (TrimPrefix path "/product/") = inl id -> 0 <= id ->
  payload_error d = None ->
  (forall v,
      run b (service.GetProductById id) w = (Returned (v, err), w1, tr) ->
      run b (GetProductById path c) w
      = (Returned (match critical_of err with
                   | Some critical => failure_reply critical
                   | None => mkReply StatusOK (Bytes v)
                   end, c ++ reported err), w1, tr))
  /\ (forall v,
      run b (service.UpdateProductById id d.1) w = (Returned (v, err), w1, tr) ->
      run b (UpdateProduct path d c) w
      = (Returned (match critical_of err with
                   | Some critical => failure_reply critical
                   | None => mkReply StatusOK (EncodedProduct v)
                   end, c ++ reported err), w1, tr))
  /\ (forall v,
      run b (service.DeleteProductById id) w = (Returned (v, err), w1, tr) ->
      run b (DeleteProduct path c) w
      = (Returned (match critical_of err with
                   | Some critical => failure_reply critical
                   | None => mkReply StatusOK (EncodedProduct v)
                   end, c ++ reported err), w1, tr))
  /\ (forall v,
      run b (service.CreateProduct d.1) w = (Returned (v, err), w1, tr) ->
      run b (CreateProduct d c) w
      = (Returned (match critical_of err with
                   | Some _ => mkReply StatusInternalServerError
                                       (EncodedError "Internal server error")
                   | None => mkReply StatusCreated (EncodedId v)
                   end, c ++ reported err), w1, tr))
  /\ (forall v,
      run b service.DeleteAllProducts w = (Returned (v, err), w1, tr) ->
      run b (DeleteAll c) w
      = (Returned (match critical_of err with
                   | Some _ => mkReply StatusInternalServerError
                                       (EncodedError "Internal server error")
                   | None => mkReply StatusOK (EncodedDeletedRows v)
                   end, c ++ reported err), w1, tr)).
Proof.
  intros Hparse Hid Hpayload.
  repeat split; intros v Hrun.
  all: unfold GetProductById, UpdateProduct, DeleteProduct, CreateProduct,
         DeleteAll, parseAndValidate.
  all: rewrite ?Hparse, ?Hpayload.
  all: rewrite ?bool_decide_eq_false_2 by lia.
  all: reply Hrun.
Qed.

End HandlerFacts.

(** ** The request counter of the logger *)

Section RequestIds.
Import logger.

Lemma request_ids_elements (n : nat) (requestCount x : Z) :
  0 <= requestCount < 2 ^ 64 ->
  In x (request_ids n requestCount) ->
  exists i, (i < n)%nat /\ x = (requestCount + Z.of_nat i) mod 2 ^ 64.
Proof.
  revert requestCount. induction n as [|n IH]; intros c Hc; cbn; [tauto|].
  intros [<- | Hin].
  - exists 0%nat. split; [lia|]. rewrite Z.add_0_r. now rewrite Z.mod_small.
  - apply IH in Hin as (i & Hi & ->); [|now apply Z.mod_pos_bound].
    exists (S i). split; [lia|].
    rewrite Zplus_mod_idemp_l. f_equal. lia.
Qed.

(** Requests logged one after the other get pairwise distinct ids, each a
    [uint64], as long as there are no more of them than the counter has
    values; the first id is the value of the counter. *)
Theorem request_ids_distinct (n : nat) (requestCount : Z) :
  0 <= requestCount < 2 ^ 64 ->
  Z.of_nat n <= 2 ^ 64 ->
  NoDup (request_ids n requestCount)
  /\ Forall (fun id => 0 <= id < 2 ^ 64) (request_ids n requestCount)
  /\ head (request_ids n requestCount)
     = if decide (n = 0%nat) then None else Some requestCount.
Proof.
  intros Hc Hn. repeat split.
  - revert requestCount Hc. induction n as [|n IH]; intros c Hc; cbn.
    + apply NoDup_nil; exact I.
    + apply NoDup_cons. split.
      * intros Hin. apply list_elem_of_In in Hin.
        apply request_ids_elements in Hin as (i & Hi & Heq);
          [|now apply Z.mod_pos_bound].
        rewrite Zplus_mod_idemp_l in Heq.
        change (2 ^ 64) with 18446744073709551616 in *.
        assert (c + 1 + Z.of_nat i < 18446744073709551616
                \/ 18446744073709551616 <= c + 1 + Z.of_nat i
                   < 2 * 18446744073709551616) as [Hlt | Hge] by lia.
        -- rewrite Z.mod_small in Heq by lia. lia.
        -- replace (c + 1 + Z.of_nat i)
             with ((c + 1 + Z.of_nat i - 18446744073709551616)
                   + 1 * 18446744073709551616) in Heq by lia.
           rewrite Z.mod_add in Heq by lia.
           rewrite Z.mod_small in Heq by lia. lia.
      * apply IH; [lia | now apply Z.mod_pos_bound].
  - apply Forall_forall. intros x Hx. apply list_elem_of_In in Hx.
    apply request_ids_elements in Hx as (i & _ & ->); [|exact Hc].
    now apply Z.mod_pos_bound.
  - destruct n; reflexivity.
Qed.

End RequestIds.

(** ** The further properties at the inputs of the examples *)

Section FurtherInstances.
Import cache repository app mocks examples.

(** [coherent_after_all] from the empty cache of [w44], through a miss, an
    update, a create, a delete and a bulk delete. *)
Lemma coherent_after_all_witness :
  let reqs := [ReqGetProductById 44;
               ReqUpdateProductById 44 updatedProduct;
               ReqCreateProduct newProduct;
               ReqGetProductById 45;
               ReqDeleteProductById 44;
               ReqDeleteAllProducts] in
  coherent (H := plain_encoder) w44
  /\ coherent (H := plain_encoder) (after_all (H := plain_encoder) reqs w44).
Proof.
  cbv zeta. split.
  - apply coherent_empty.
  - apply (coherent_after_all (H := plain_encoder)). apply coherent_empty.
Defined.

(** [GetProductById_reads_the_row] on the state a first lookup of product 44
    leaves: the second one is answered by the cache with the row of the
    table. *)
Lemma GetProductById_reads_the_row_witness :
  let b := adapters (H := plain_encoder) in
  let w := after_all (H := plain_encoder) [ReqGetProductById 44] w44 in
  let r := run b (service.GetProductById (H := plain_encoder) 44) w in
  (coherent (H := plain_encoder) w
   /\ r = (Returned (Some (plain_json p44), None), r.1.2, r.2)
   /\ (forall se, @None ServiceError = Some se -> CriticalError se = None))
  /\ exists p,
      find (has_id 44) (pg_rows (postgres w)) = Some p
      /\ (plain_encoder (Some p)).2 = None
      /\ default "" (Some (plain_json p44)) = default "" (plain_encoder (Some p)).1.
Proof.
  cbv zeta.
  assert (coherent (H := plain_encoder)
                   (after_all (H := plain_encoder) [ReqGetProductById 44] w44))
    as Hc.
  { apply (coherent_after (H := plain_encoder) (ReqGetProductById 44)).
    apply coherent_empty. }
  split.
  - split; [exact Hc|]. split; [reflexivity | intros se Hse; discriminate Hse].
  - eapply (GetProductById_reads_the_row (H := plain_encoder)).
    + exact Hc.
    + reflexivity.
    + intros se Hse. discriminate Hse.
Defined.

Lemma keyed_w123 : keyed (postgres w123).
Proof.
  split; cbn.
  - repeat (apply NoDup_cons; split; [vm_compute; intros Hin; inversion Hin;
                                      subst; repeat match goal with
                                        | Hx : _ ∈ _ |- _ => inversion Hx; clear Hx; subst
                                        end|]).
    apply NoDup_nil; exact I.
  - repeat (apply Forall_cons; split; [cbn; lia|]). apply Forall_nil; exact I.
Qed.

(** [keyed_run] on the table of three products, through a create. *)
Lemma keyed_run_witness :
  keyed (postgres w123)
  /\ keyed (postgres (run (adapters (H := plain_encoder))
                          (service.CreateProduct newProduct) w123).1.2).
Proof.
  split; [exact keyed_w123|].
  apply (keyed_run (H := plain_encoder)). exact keyed_w123.
Defined.

(** [CreateProduct_fresh_id] after a bulk delete of the three products: the
    id is 4, not 1. *)
Lemma CreateProduct_fresh_id_witness :
  let b := adapters (H := plain_encoder) in
  let w := (run b service.DeleteAllProducts w123).1.2 in
  (keyed (postgres w123) /\ fault_at 0 (pg_faults (postgres w)) = None)
  /\ pg_rows (postgres w) = []
  /\ exists err w' tr,
      run b (service.CreateProduct newProduct) w = (Returned (3 + 1, err), w', tr)
      /\ ~ In (3 + 1) (map Id (pg_rows (postgres w)))
      /\ (forall se, err = Some se -> CriticalError se = None).
Proof.
  cbv zeta. split; [split; [exact keyed_w123 | reflexivity]|].
  split; [reflexivity|].
  apply (CreateProduct_fresh_id (H := plain_encoder)
           service.DeleteAllProducts w123 newProduct keyed_w123).
  reflexivity.
Defined.

(** [SetProduct_then_GetJSONProductById] on the empty cache of [w44]. *)
Lemma SetProduct_then_GetJSONProductById_witness :
  let r := redis w44 in
  let r1 := (SetProduct (H := plain_encoder) (Some p44) r).2 in
  (SetProduct (H := plain_encoder) (Some p44) r = (Returned None, r1)
   /\ fault_at 0 (redis_faults r1) = None)
  /\ exists d,
      plain_encoder (Some p44) = (d, None)
      /\ (GetJSONProductById 44 r1).1 = Returned (Some (default "" d), None).
Proof.
  cbv zeta. split; [split; reflexivity|].
  apply (SetProduct_then_GetJSONProductById (H := plain_encoder) p44 (redis w44));
    reflexivity.
Defined.

(** [SetProduct_other_ids]: writing product 44 leaves the entry of product 2
    of [w123] as it is. *)
Lemma SetProduct_other_ids_witness :
  let r := redis w123 in
  let o := (SetProduct (H := plain_encoder) (Some p44) r).1 in
  let r1 := (SetProduct (H := plain_encoder) (Some p44) r).2 in
  (SetProduct (H := plain_encoder) (Some p44) r = (o, r1) /\ 2 <> Id p44)
  /\ redis_keys r1 !! createKey 2 = redis_keys r !! createKey 2.
Proof.
  cbv zeta. split; [split; [reflexivity | discriminate]|].
  eapply (SetProduct_other_ids (H := plain_encoder) p44 (redis w123));
    [reflexivity | discriminate].
Defined.

(** [DeleteProductById_then_not_found] on the entry of product 2. *)
Lemma DeleteProductById_then_not_found_witness :
  let r := redis w123 in
  let r1 := (cache.DeleteProductById 2 r).2 in
  (cache.DeleteProductById 2 r = (Returned None, r1)
   /\ fault_at 0 (redis_faults r1) = None)
  /\ is_Some (redis_keys r !! createKey 2)
  /\ (exists e, (GetJSONProductById 2 r1).1 = Returned (None, Some e)
                /\ errors_Is e (Sentinel ErrNotFound) = true)
  /\ (exists e, (cache.DeleteProductById 2 r1).1 = Returned (Some e)
                /\ errors_Is e (Sentinel ErrNotFound) = true).
Proof.
  cbv zeta. split; [split; reflexivity|].
  apply (DeleteProductById_then_not_found 2 (redis w123)); reflexivity.
Defined.

(** [ClearCache_then_not_found] on the cache of [w123]. *)
Lemma ClearCache_then_not_found_witness :
  let r := redis w123 in
  let r1 := (ClearCache r).2 in
  (ClearCache r = (Returned None, r1) /\ fault_at 0 (redis_faults r1) = None)
  /\ exists e, (GetJSONProductById 2 r1).1 = Returned (None, Some e)
               /\ errors_Is e (Sentinel ErrNotFound) = true.
Proof.
  cbv zeta. split; [split; reflexivity|].
  eapply (ClearCache_then_not_found (redis w123)); reflexivity.
Defined.

(** [cache_error_contract] on a lookup of product 7, which [w123] does not
    cache. *)
Lemma cache_error_contract_witness :
  let r := redis w123 in
  let e := Errorf_w (Sentinel ErrNotFound)
                    (": failed to find product " +:+ pretty 7 +:+ " in cache") in
  GetJSONProductById 7 r = (Returned (None, Some e), r)
  /\ (@None string = None /\ redis_keys r = redis_keys r
      /\ (errors_Is e (Sentinel ErrNotFound) = true
          /\ errors_Is e (Sentinel ErrInternalCache) = false
          /\ redis_keys r !! createKey 7 = None
          \/ errors_Is e (Sentinel ErrNotFound) = false
             /\ errors_Is e (Sentinel ErrInternalCache) = true)).
Proof.
  cbv zeta. split; [reflexivity|].
  apply (proj1 (proj2 (cache_error_contract
                         (H := plain_encoder) (redis w123) (redis w123)
                         (Errorf_w (Sentinel ErrNotFound)
                                   (": failed to find product " +:+ pretty 7
                                    +:+ " in cache"))))
           7 None).
  reflexivity.
Defined.

(** [StoreProduct_then_GetProduct] on the table of [w123]. *)
Lemma StoreProduct_then_GetProduct_witness :
  let db := postgres w123 in
  let db1 := (StoreProduct newProduct db).2 in
  (StoreProduct newProduct db = (Returned (4, None), db1)
   /\ fault_at 0 (pg_faults db1) = None)
  /\ (GetProduct 4 db1).1
     = Returned (Some (mkProduct 4 (NewName newProduct)
                                 (NewAdditionalInfo newProduct)), None).
Proof.
  cbv zeta. split; [split; reflexivity|].
  apply (StoreProduct_then_GetProduct newProduct (postgres w123)); reflexivity.
Defined.

(** [UpdateProductById_then_GetProduct] on product 2 of [w123]. *)
Lemma UpdateProductById_then_GetProduct_witness :
  let db := postgres w123 in
  let db1 := (repository.UpdateProductById 2 updatedProduct db).2 in
  repository.UpdateProductById 2 updatedProduct db = (Returned (Some p2, None), db1)
  /\ (Some p2 = find (has_id 2) (pg_rows db)
      /\ is_Some (Some p2)
      /\ length (pg_rows db1) = length (pg_rows db)
      /\ (forall id', id' <> 2 ->
            find (has_id id') (pg_rows db1) = find (has_id id') (pg_rows db))
      /\ (fault_at 0 (pg_faults db1) = None ->
          (GetProduct 2 db1).1
          = Returned (Some (mkProduct 2 (NewName updatedProduct)
                                      (NewAdditionalInfo updatedProduct)), None))).
Proof.
  cbv zeta. split; [reflexivity|].
  apply (UpdateProductById_then_GetProduct 2 updatedProduct (postgres w123)).
  reflexivity.
Defined.

(** [DeleteProductById_then_GetProduct] on product 2 of [w123]. *)
Lemma DeleteProductById_then_GetProduct_witness :
  let db := postgres w123 in
  let db1 := (repository.DeleteProductById 2 db).2 in
  repository.DeleteProductById 2 db = (Returned (Some p2, None), db1)
  /\ (Some p2 = find (has_id 2) (pg_rows db)
      /\ is_Some (Some p2)
      /\ (forall id', id' <> 2 ->
            find (has_id id') (pg_rows db1) = find (has_id id') (pg_rows db))
      /\ (fault_at 0 (pg_faults db1) = None ->
          exists e, (GetProduct 2 db1).1 = Returned (None, Some e)
                    /\ errors_Is e (Sentinel ErrNotFound) = true)).
Proof.
  cbv zeta. split; [reflexivity|].
  apply (DeleteProductById_then_GetProduct 2 (postgres w123)). reflexivity.
Defined.

(** [repository_error_contract] on an update of product 7, which the table
    of [w123] does not hold. *)
Lemma repository_error_contract_witness :
  let db := postgres w123 in
  let e := Errorf_w (Sentinel ErrNotFound)
                    (": failed to find product " +:+ pretty 7 +:+ " in DB") in
  repository.UpdateProductById 7 updatedProduct db = (Returned (None, Some e), db)
  /\ (@None Product = None /\ pg_rows db = pg_rows db
      /\ (errors_Is e (Sentinel ErrNotFound) = true
          /\ errors_Is e (Sentinel ErrInternalDb) = false
          /\ find (has_id 7) (pg_rows db) = None
          \/ errors_Is e (Sentinel ErrNotFound) = false
             /\ errors_Is e (Sentinel ErrInternalDb) = true)).
Proof.
  cbv zeta. split; [reflexivity|].
  apply (proj1 (proj2 (repository_error_contract
                         (postgres w123) (postgres w123)
                         (Errorf_w (Sentinel ErrNotFound)
                                   (": failed to find product " +:+ pretty 7
                                    +:+ " in DB"))))
           7 updatedProduct None).
  reflexivity.
Defined.


(** [GetProductById_store_failure] on the doubles of the service test "Repo
    and cache return internal errors". *)
Lemma GetProductById_store_failure_witness :
  let b := doubles (cache_answering (Some (Sentinel ErrInternalCache)))
                   (repository_failing (Sentinel ErrInternalDb)) in
  (b _ (Cache_GetJSONProductById 6) tt
   = (Returned (None, Some (Sentinel ErrInternalCache)), tt)
   /\ b _ (Db_GetProduct 6) tt
      = (Returned (None, Some (Sentinel ErrInternalDb)), tt))
  /\ run b (service.GetProductById (H := plain_encoder) 6) tt
     = (Returned (None, Some (NewServiceError (Some (Sentinel ErrInternalDb))
                                              [Sentinel ErrInternalCache])),
        tt,
        [Invoked (Cache_GetJSONProductById 6)
                 (Returned (None, Some (Sentinel ErrInternalCache)));
         Invoked (Db_GetProduct 6)
                 (Returned (None, Some (Sentinel ErrInternalDb)))]).
Proof.
  cbv zeta. split; [split; reflexivity|].
  eapply (GetProductById_store_failure (H := plain_encoder)); reflexivity.
Defined.

(** [invalidated_then_store] on the doubles of the service tests "Product
    updated - no errors" and "Product delete - product not found in db". *)
Lemma invalidated_then_store_witness :
  let fine := doubles (cache_answering None) (repository_holding oldProduct) in
  let missing := doubles (cache_answering None)
                         (repository_failing (Sentinel ErrNotFound)) in
  (fine _ (Cache_DeleteProductById 4) tt = (Returned None, tt)
   /\ fine _ (Db_UpdateProductById 4 updatedProduct) tt
      = (Returned (Some oldProduct, None), tt)
   /\ (run fine (service.UpdateProductById 4 updatedProduct) tt).1
      = (Returned (Some oldProduct, None), tt))
  /\ (missing _ (Cache_DeleteProductById 3) tt = (Returned None, tt)
      /\ missing _ (Db_DeleteProductById 3) tt
         = (Returned (None, Some (Sentinel ErrNotFound)), tt)
      /\ (run missing (service.DeleteProductById 3) tt).1
         = (Returned (None, Some (NewServiceError (Some (Sentinel ErrNotFound)) [])),
            tt)).
Proof.
  cbv zeta. split.
  - do 2 (split; [reflexivity|]).
    apply (proj1 (invalidated_then_store
                    (doubles (cache_answering None) (repository_holding oldProduct))
                    4 updatedProduct tt tt tt) (Some oldProduct) None);
      reflexivity.
  - do 2 (split; [reflexivity|]).
    apply (proj1 (proj2 (invalidated_then_store
                    (doubles (cache_answering None)
                             (repository_failing (Sentinel ErrNotFound)))
                    3 updatedProduct tt tt tt))
             None (Some (Sentinel ErrNotFound)));
      reflexivity.
Defined.

(** [UpdateProductById_then_GetProductById] on product 2 of [w123], which
    the cache holds with its old texts. *)
Lemma UpdateProductById_then_GetProductById_witness :
  let b := adapters (H := plain_encoder) in
  let new := mkProduct 2 (NewName updatedProduct)
                       (NewAdditionalInfo updatedProduct) in
  (healthy w123
   /\ find (has_id 2) (pg_rows (postgres w123)) = Some p2
   /\ plain_encoder (Some new) = (Some (plain_json new), None)
   /\ redis_keys (redis w123) !! createKey 2 = Some (plain_json p2))
  /\ exists e1 w1 tr1 e2 w2 tr2,
      run b (service.UpdateProductById 2 updatedProduct) w123
      = (Returned (Some p2, e1), w1, tr1)
      /\ (forall se, e1 = Some se -> CriticalError se = None)
      /\ run b (service.GetProductById (H := plain_encoder) 2) w1
         = (Returned (Some (plain_json new), e2), w2, tr2)
      /\ (forall se, e2 = Some se -> CriticalError se = None)
      /\ redis_keys (redis w2) !! createKey 2 = Some (plain_json new).
Proof.
  cbv zeta. split.
  - split; [split; reflexivity|]. repeat split; reflexivity.
  - apply (UpdateProductById_then_GetProductById
             (H := plain_encoder) w123 2 updatedProduct p2).
    + split; reflexivity.
    + reflexivity.
    + reflexivity.
Defined.

(** [DeleteProductById_then_GetProductById] on product 2 of [w123]. *)
Lemma DeleteProductById_then_GetProductById_witness :
  let b := adapters (H := plain_encoder) in
  (healthy w123 /\ find (has_id 2) (pg_rows (postgres w123)) = Some p2)
  /\ exists e1 w1 tr1 se w2 tr2 critical,
      run b (service.DeleteProductById 2) w123
      = (Returned (Some p2, e1), w1, tr1)
      /\ (forall se1, e1 = Some se1 -> CriticalError se1 = None)
      /\ run b (service.GetProductById (H := plain_encoder) 2) w1
         = (Returned (None, Some se), w2, tr2)
      /\ CriticalError se = Some critical
      /\ errors_Is critical (Sentinel ErrNotFound) = true.
Proof.
  cbv zeta. split.
  - split; [split; reflexivity | reflexivity].
  - apply (DeleteProductById_then_GetProductById (H := plain_encoder) w123 2 p2).
    + split; reflexivity.
    + reflexivity.
Defined.

(** [DeleteAllProducts_then_nothing_left] on [w123], looking for product 2
    afterwards. *)
Lemma DeleteAllProducts_then_nothing_left_witness :
  let b := adapters (H := plain_encoder) in
  healthy w123
  /\ exists w1 tr1,
      run b service.DeleteAllProducts w123
      = (Returned (Z.of_nat (length (pg_rows (postgres w123))), None), w1, tr1)
      /\ (run b service.GetAllProducts w1).1.1 = Returned (Some [], None)
      /\ exists se critical,
          (run b (service.GetProductById (H := plain_encoder) 2) w1).1.1
          = Returned (None, Some se)
          /\ CriticalError se = Some critical
          /\ errors_Is critical (Sentinel ErrNotFound) = true.
Proof.
  cbv zeta. split.
  - split; reflexivity.
  - apply (DeleteAllProducts_then_nothing_left (H := plain_encoder) w123 2).
    split; reflexivity.
Defined.

(** [ParseInt_range] on the least [int64]. *)
Lemma ParseInt_range_witness :
  routing.ParseInt "-9223372036854775808" = inl (- 9223372036854775808)
  /\ - 2 ^ 63 <= - 9223372036854775808 < 2 ^ 63.
Proof.
  split; [reflexivity|].
  apply (ParseInt_range "-9223372036854775808"). reflexivity.
Defined.

(** [ParseInt_pretty] on the greatest [int64]. *)
Lemma ParseInt_pretty_witness :
  - 2 ^ 63 <= 9223372036854775807 < 2 ^ 63
  /\ routing.ParseInt (pretty 9223372036854775807) = inl 9223372036854775807.
Proof.
  split; [lia|]. apply ParseInt_pretty. lia.
Defined.

(** [GetProducts_partial_parameters] on a request with a limit that is no
    number and no offset, over the adapters. *)
Lemma GetProducts_partial_parameters_witness :
  let b := adapters (H := plain_encoder) in
  (EmptyString = "" \/ "many" = "")
  /\ routing.GetProducts "" "many" []
     = routing.GetProducts "" "" []
  /\ exists r, (run b (routing.GetProducts "" "many" []) w123).2
               = [Invoked Db_GetAllProducts r].
Proof.
  cbv zeta. split; [left; reflexivity|].
  apply GetProducts_partial_parameters. left; reflexivity.
Defined.

(** [invalid_id_rejected] on the path [/product/abc]. *)
Lemma invalid_id_rejected_witness :
  let b := adapters (H := plain_encoder) in
  (forall id, routing.ParseInt (handlers.TrimPrefix "/product/abc" "/product/")
              = inl id -> id < 0)
  /\ exists err,
      let rejected :=
        (Returned (handlers.mkReply routing.StatusBadRequest
                                    (handlers.EncodedError "Invalid product id"),
                   [] ++ [err]), w123, @nil Invocation) in
      run b (handlers.GetProductById (H := plain_encoder) "/product/abc" []) w123
      = rejected
      /\ run b (handlers.UpdateProduct "/product/abc" (updatedProduct, None) [])
             w123 = rejected
      /\ run b (handlers.DeleteProduct "/product/abc" []) w123 = rejected.
Proof.
  cbv zeta.
  assert (forall id,
             routing.ParseInt (handlers.TrimPrefix "/product/abc" "/product/")
             = inl id -> id < 0) as Hbad.
  { intros id Hid. vm_compute in Hid. discriminate Hid. }
  split; [exact Hbad|].
  apply (invalid_id_rejected (H := plain_encoder)). exact Hbad.
Defined.

(** [invalid_payload_rejected] on a payload with an empty name. *)
Lemma invalid_payload_rejected_witness :
  let b := adapters (H := plain_encoder) in
  let d : handlers.Decoded := (mkNewProduct "" "info", None) in
  ((is_Some d.2 \/ NewName d.1 = "" \/ NewAdditionalInfo d.1 = "")
   /\ routing.ParseInt (handlers.TrimPrefix "/product/2" "/product/") = inl 2
   /\ 0 <= 2)
  /\ exists err,
      let rejected :=
        (Returned (handlers.mkReply routing.StatusBadRequest
                                    (handlers.EncodedError "Invalid request body"),
                   [] ++ [err]), w123, @nil Invocation) in
      run b (handlers.CreateProduct d []) w123 = rejected
      /\ run b (handlers.UpdateProduct "/product/2" d []) w123 = rejected.
Proof.
  cbv zeta. split.
  - split; [right; left; reflexivity|]. split; [reflexivity | lia].
  - apply (invalid_payload_rejected (adapters (H := plain_encoder))
             "/product/2" 2 (mkNewProduct "" "info", None) [] w123).
    + right; left; reflexivity.
    + reflexivity.
    + lia.
Defined.

(** [handlers_reply] on [GET /product/7] over [w123], where neither the
    cache nor the table has product 7: the answer is 404 and the container
    holds the error of the store, then the error of the cache. *)
Lemma handlers_reply_witness :
  let b := adapters (H := plain_encoder) in
  let r := run b (service.GetProductById (H := plain_encoder) 7) w123 in
  let cacheErr :=
    Errorf_w (Sentinel ErrNotFound)
             (": failed to find product " +:+ pretty 7 +:+ " in cache") in
  let dbErr :=
    Errorf_w (Sentinel ErrNotFound)
             (": failed to find product " +:+ pretty 7 +:+ " in DB") in
  let err := Some (NewServiceError (Some dbErr) [cacheErr]) in
  (routing.ParseInt (handlers.TrimPrefix "/product/7" "/product/") = inl 7
   /\ 0 <= 7
   /\ handlers.payload_error (updatedProduct, None) = None
   /\ r = (Returned (None, err), r.1.2, r.2))
  /\ run b (handlers.GetProductById (H := plain_encoder) "/product/7" []) w123
     = (Returned (handlers.mkReply handlers.StatusNotFound
                                   (handlers.EncodedError "Product not found"),
                  [dbErr; cacheErr]), r.1.2, r.2).
Proof.
  cbv zeta. split.
  - split; [reflexivity|]. split; [lia|]. split; reflexivity.
  - assert (0 <= 7) as Hid by lia.
    apply (proj1 (handlers_reply
                    (H := plain_encoder) (adapters (H := plain_encoder))
                    "/product/7" 7 (updatedProduct, None) [] w123
                    (run (adapters (H := plain_encoder))
                         (service.GetProductById (H := plain_encoder) 7) w123).1.2
                    (run (adapters (H := plain_encoder))
                         (service.GetProductById (H := plain_encoder) 7) w123).2
                    (Some (NewServiceError
                             (Some (Errorf_w (Sentinel ErrNotFound)
                                      (": failed to find product " +:+ pretty 7
                                       +:+ " in DB")))
                             [Errorf_w (Sentinel ErrNotFound)
                                (": failed to find product " +:+ pretty 7
                                 +:+ " in cache")]))
                    eq_refl Hid eq_refl) None).
    reflexivity.
Defined.

(** [request_ids_distinct] on three requests logged from the last value of
    the counter on: the ids wrap around to 0 and 1. *)
Lemma request_ids_distinct_witness :
  (0 <= 2 ^ 64 - 1 < 2 ^ 64 /\ Z.of_nat 3 <= 2 ^ 64)
  /\ logger.request_ids 3 (2 ^ 64 - 1) = [2 ^ 64 - 1; 0; 1]
  /\ NoDup (logger.request_ids 3 (2 ^ 64 - 1))
  /\ Forall (fun id => 0 <= id < 2 ^ 64) (logger.request_ids 3 (2 ^ 64 - 1))
  /\ head (logger.request_ids 3 (2 ^ 64 - 1))
     = if decide (3%nat = 0%nat) then None else Some (2 ^ 64 - 1).
Proof.
  split; [split; [split; [discriminate | reflexivity] | discriminate]|].
  split; [reflexivity|].
  apply (request_ids_distinct 3 (2 ^ 64 - 1)).
  - split; [discriminate | reflexivity].
  - discriminate.
Defined.

End FurtherInstances.
